(** * git-pull-request: branch naming and the update state machine

    A shallow embedding of [git-pull-request.py] (Python 2).

    - Python [str] values are [string]s; [int] is [Z].
    - An exception is a value of [exn]; a computation that can raise
      returns an [outcome].
    - The [options] dictionary is a [gmap string value].
    - Everything the script asks of its surroundings ([os.system],
      [os.popen], [os.chdir], the symbolic-link queries, the HTTP
      requests) is answered by an [Env], as a function of the actions the
      process has performed so far.
    - Text written to standard output ([print], [color_text], [fill]) is
      left out: no property below depends on it.  *)

From Stdlib Require Import String Ascii ZArith NArith List Lia Bool.
From Stdlib Require Import DecimalString DecimalPos DecimalZ Decimal.
From stdpp Require Import gmap strings.
Import ListNotations.

Local Open Scope string_scope.
Local Open Scope Z_scope.

#[local] Arguments String.append !s1 s2 : simpl nomatch.

(** ** Exceptions *)

Inductive exn : Type :=
| UserWarning (msg : string)
| AttributeError (msg : string)
| UnboundLocalError (var : string)
| KeyError (key : string)
| TypeError (msg : string)
| ValueError (msg : string)
| OSError (path : string)
| URLError (url : string).

Inductive outcome (A : Type) : Type :=
| Returns (a : A)
| Raises (e : exn).
Arguments Returns {A} a.
Arguments Raises {A} e.

(** ** Python built-ins on strings *)

Module Py.

Definition in_range (lo hi c : ascii) : bool :=
  (N_of_ascii lo <=? N_of_ascii c)%N && (N_of_ascii c <=? N_of_ascii hi)%N.

(** [str.strip()] with no argument removes these six characters. *)
Definition is_space (c : ascii) : bool :=
  match N_of_ascii c with
  | 9%N | 10%N | 11%N | 12%N | 13%N | 32%N => true
  | _ => false
  end.

Fixpoint lstrip (s : string) : string :=
  match s with
  | String c s' => if is_space c then lstrip s' else s
  | EmptyString => s
  end.

Fixpoint rstrip_with (p : ascii -> bool) (s : string) : string :=
  match s with
  | String c s' =>
      match rstrip_with p s' with
      | EmptyString => if p c then EmptyString else String c EmptyString
      | r => String c r
      end
  | EmptyString => EmptyString
  end.

Definition rstrip : string -> string := rstrip_with is_space.

Definition strip (s : string) : string := rstrip (lstrip s).

(** [s[0:n]] *)
Definition slice_to (n : nat) (s : string) : string := substring 0 n s.

(** [s[n:]] *)
Fixpoint slice_from (n : nat) (s : string) : string :=
  match n, s with
  | S n', String _ s' => slice_from n' s'
  | _, _ => s
  end.

(** [str(n)] and ['%s' % n] for an integer. *)
Definition str (n : Z) : string := NilZero.string_of_int (Z.to_int n).

(** [int(s)] on a decimal numeral with an optional minus sign. *)
Definition int (s : string) : outcome Z :=
  match NilZero.int_of_string s with
  | Some d => Returns (Z.of_int d)
  | None => Raises (ValueError s)
  end.

(** [s.replace(old, new)]: every occurrence of a non-empty [old], left to
    right, without overlap.  [fuel] bounds the number of characters read. *)
Fixpoint replace_fuel (fuel : nat) (old new s : string) : string :=
  match fuel with
  | O => s
  | S fuel' =>
      if String.prefix old s
      then new ++ replace_fuel fuel' old new (slice_from (String.length old) s)
      else match s with
           | String c s' => String c (replace_fuel fuel' old new s')
           | EmptyString => EmptyString
           end
  end.

Fixpoint interleave (new s : string) : string :=
  match s with
  | String c s' => String c (new ++ interleave new s')
  | EmptyString => EmptyString
  end.

(** With an empty [old], Python puts [new] before every character and at
    the end. *)
Definition replace (old new s : string) : string :=
  match old with
  | EmptyString => new ++ interleave new s
  | _ => replace_fuel (S (String.length s)) old new s
  end.

(** [posixpath.join(a, b)] *)
Definition path_join (a b : string) : string :=
  if String.prefix "/" b then b
  else if (a =? "")%string then b
  else if (slice_from (String.length a - 1) a =? "/")%string then a ++ b
  else a ++ "/" ++ b.

(** [p.rfind('/') + 1]: the length of the part of [p] up to and including
    its last slash. *)
Fixpoint after_last_slash (p : string) : nat :=
  match p with
  | String c p' =>
      match after_last_slash p' with
      | O => if Ascii.eqb c "/" then 1%nat else O
      | S k => S (S k)
      end
  | EmptyString => O
  end.

Fixpoint all_chars (p : ascii -> bool) (s : string) : bool :=
  match s with
  | String c s' => p c && all_chars p s'
  | EmptyString => true
  end.

(** [posixpath.dirname(p)] *)
Definition dirname (p : string) : string :=
  let head := slice_to (after_last_slash p) p in
  if negb (head =? "")%string && negb (all_chars (Ascii.eqb "/") head)
  then rstrip_with (Ascii.eqb "/") head
  else head.

End Py.

(** ** The fragment of [re] the script uses

    A pattern is a sequence of items.  Repetition is only ever applied to
    a single character class, greedily ([X{n,}], [X+]) or lazily ([X+?],
    [X*?]), and there is at most one capturing group.  Matching is by
    backtracking, as in [re]: a greedy repetition takes as many characters
    as it can and gives them back one at a time; a lazy one starts from
    its minimum.  Without the UNICODE flag, [\d] is [0-9]. *)

Module Re.

Inductive item : Type :=
| Lit (c : ascii)
| Cls (p : ascii -> bool)
| Rep (greedy : bool) (min : nat) (p : ascii -> bool)
| Bol
| GOpen
| GClose.

Definition digit : ascii -> bool := Py.in_range "0" "9".
Definition upper : ascii -> bool := Py.in_range "A" "Z".
Definition not_newline (c : ascii) : bool := negb (Ascii.eqb c "010").

(** A literal string as a sequence of [Lit] items. *)
Fixpoint lits (s : string) : list item :=
  match s with
  | String c s' => Lit c :: lits s'
  | EmptyString => []
  end.

(** Where group 1 was opened, and its span once closed. *)
Definition groups : Type := nat * option (nat * nat).

Section Engine.
Context {R : Type}.
(** The rest of the match: previous character, offset, remaining text. *)
Definition cont : Type := option ascii -> nat -> string -> option R.

Fixpoint rep_min (n : nat) (p : ascii -> bool) (k : cont) : cont :=
  fun prev i s =>
    match n with
    | O => k prev i s
    | S n' =>
        match s with
        | String c s' => if p c then rep_min n' p k (Some c) (S i) s' else None
        | EmptyString => None
        end
    end.

Fixpoint rep_greedy (p : ascii -> bool) (k : cont)
    (prev : option ascii) (i : nat) (s : string) : option R :=
  match s with
  | String c s' =>
      if p c then
        match rep_greedy p k (Some c) (S i) s' with
        | Some r => Some r
        | None => k prev i s
        end
      else k prev i s
  | EmptyString => k prev i s
  end.

Fixpoint rep_lazy (p : ascii -> bool) (k : cont)
    (prev : option ascii) (i : nat) (s : string) : option R :=
  match k prev i s with
  | Some r => Some r
  | None =>
      match s with
      | String c s' => if p c then rep_lazy p k (Some c) (S i) s' else None
      | EmptyString => None
      end
  end.
End Engine.

Definition at_bol (multiline : bool) (prev : option ascii) : bool :=
  match prev with
  | None => true
  | Some c => multiline && Ascii.eqb c "010"
  end.

(** Match the items at offset [i]; the result is the end offset and the
    groups. *)
Fixpoint match_items (multiline : bool) (its : list item) (g : groups)
    (prev : option ascii) (i : nat) (s : string) : option (nat * groups) :=
  match its with
  | [] => Some (i, g)
  | Lit c :: its' =>
      match s with
      | String c' s' =>
          if Ascii.eqb c' c
          then match_items multiline its' g (Some c') (S i) s'
          else None
      | EmptyString => None
      end
  | Cls p :: its' =>
      match s with
      | String c' s' =>
          if p c' then match_items multiline its' g (Some c') (S i) s' else None
      | EmptyString => None
      end
  | Rep greedy n p :: its' =>
      rep_min n p
        ((if greedy then rep_greedy else rep_lazy) p
           (fun prev' i' s' => match_items multiline its' g prev' i' s'))
        prev i s
  | Bol :: its' =>
      if at_bol multiline prev then match_items multiline its' g prev i s
      else None
  | GOpen :: its' => match_items multiline its' (i, snd g) prev i s
  | GClose :: its' => match_items multiline its' (fst g, Some (fst g, i)) prev i s
  end.

(** A match object: the span of the whole match and of group 1, and the
    searched string. *)
Record match_object : Type := {
  m_string : string;
  m_start : nat;
  m_end : nat;
  m_group1 : option (nat * nat)
}.

Fixpoint search_from (multiline : bool) (its : list item) (whole : string)
    (prev : option ascii) (i : nat) (s : string) : option match_object :=
  match match_items multiline its (O, None) prev i s with
  | Some (e, g) =>
      Some {| m_string := whole; m_start := i; m_end := e; m_group1 := snd g |}
  | None =>
      match s with
      | String c s' => search_from multiline its whole (Some c) (S i) s'
      | EmptyString => None
      end
  end.

(** [re.search(pattern, s)] and [re.search(pattern, s, re.MULTILINE)] *)
Definition search (multiline : bool) (its : list item) (s : string)
  : option match_object :=
  search_from multiline its s None O s.

Definition group0 (m : match_object) : string :=
  substring (m_start m) (m_end m - m_start m) (m_string m).

(** [m.group(1)]; [None] when the group took no part in the match. *)
Definition group1 (m : match_object) : option string :=
  match m_group1 m with
  | Some (a, b) => Some (substring a (b - a) (m_string m))
  | None => None
  end.

End Re.

(** ** Pull requests *)

Record Repository : Type := {
  url : string;
  private : bool
}.

Record Head : Type := {
  ref : string;
  repository : Repository
}.

Record User : Type := {
  name : string;
  login : string
}.

Record PullRequest : Type := {
  number : Z;
  title : string;
  body : string;
  user : User;
  head : Head;
  html_url : string
}.

(** ** Branch naming *)

(** [^[A-Z]{3,}-\d+] *)
Definition issue_key_at_start : list Re.item :=
  [Re.Bol; Re.Rep true 3 Re.upper; Re.Lit "-"; Re.Rep true 1 Re.digit].

(** [([A-Z]{3,}-\d+)] *)
Definition issue_key_anywhere : list Re.item :=
  [Re.GOpen; Re.Rep true 3 Re.upper; Re.Lit "-"; Re.Rep true 1 Re.digit;
   Re.GClose].

(** [^pull-request-(\d+)] *)
Definition pull_request_prefix : list Re.item :=
  Re.Bol :: Re.lits "pull-request-" ++ [Re.GOpen; Re.Rep true 1 Re.digit; Re.GClose].

Definition build_branch_name (pull_request : PullRequest) : string :=
  let ref_ := ref (head pull_request) in
  let request_id := number pull_request in
  let m := Re.search false issue_key_at_start ref_ in
  let branch_name := "pull-request-" ++ Py.str request_id in
  match m with
  | Some m =>
      if negb (Re.group0 m =? "")%string
      then branch_name ++ "-" ++ Re.group0 m
      else branch_name
  | None => branch_name
  end.

Definition build_pull_request_title (branch_name : string) : string :=
  let m := Re.search false issue_key_anywhere branch_name in
  match m with
  | Some m =>
      match Re.group1 m with
      | Some g => if negb (g =? "")%string then g else branch_name
      | None => branch_name
      end
  | None => branch_name
  end.

(** What [m.group(1)] raises when [m] is [None]. *)
Definition none_has_no_group : exn :=
  AttributeError "'NoneType' object has no attribute 'group'".

Definition get_pull_request_ID (branch_name : string) : outcome Z :=
  let m := Re.search false pull_request_prefix branch_name in
  match m with
  | None => Raises none_has_no_group
  | Some m =>
      match Re.group1 m with
      | Some g => Py.int g
      | None => Raises (TypeError "int() argument must be a string or a number, not 'NoneType'")
      end
  end.

(** ** The process and its surroundings *)

(** A value of the [options] dictionary, as [load_options] leaves it. *)
Inductive value : Type :=
| VNone
| VBool (b : bool)
| VStr (s : string).

Definition truthy (v : value) : bool :=
  match v with
  | VNone => false
  | VBool b => b
  | VStr s => negb (s =? "")%string
  end.

Definition value_eqb_str (v : value) (s : string) : bool :=
  match v with
  | VStr s' => (s' =? s)%string
  | _ => false
  end.

(** ['%s' % v] *)
Definition value_str (v : value) : string :=
  match v with
  | VNone => "None"
  | VBool true => "True"
  | VBool false => "False"
  | VStr s => s
  end.

(** The defaults at the top of the script (colours left out). *)
Definition default_options : gmap string value :=
  <["close-default-comment" := VNone]>
  (<["fetch-auto-checkout" := VBool false]>
  (<["fetch-auto-update" := VBool false]>
  (<["merge-auto-close" := VBool true]>
  (<["update-method" := VStr "merge"]>
  (<["submit-open-github" := VBool true]>
  (<["work-dir" := VNone]> ∅)))))).

(** What the process does to its surroundings, in order. *)
Inductive event : Type :=
| System (cmd : string)
| Popen (cmd : string)
| Chdir (dir : string)
| WriteFile (path data : string)
| Request (url : string) (params : option (list (string * string))).

Inductive http_outcome : Type :=
| HTTPError (msg : string)
| NoConnection
| Body (data : string).

(** A decoded reply of the hosting API, with the one key the commands
    below read. *)
Record Reply : Type := {
  pull : option PullRequest
}.

(** The surroundings: each answer may depend on everything done so far. *)
Record Env : Type := {
  system_status : list event -> string -> Z;
  popen_output : list event -> string -> string;
  chdir_ok : list event -> string -> bool;
  islink : list event -> string -> bool;
  readlink : list event -> string -> option string;
  urlopen : list event -> string -> option (list (string * string)) -> http_outcome;
  json_loads : string -> option Reply
}.

Record World : Type := {
  cwd : string;
  files : gmap string string;
  trace : list event
}.

Definition M (A : Type) : Type := World -> outcome A * World.

#[global] Instance M_ret : MRet M := fun A a w => (Returns a, w).
#[global] Instance M_bind : MBind M := fun A B f m w =>
  match m w with
  | (Returns a, w') => f a w'
  | (Raises e, w') => (Raises e, w')
  end.

Definition raise {A : Type} (e : exn) : M A := fun w => (Raises e, w).

Definition lift {A : Type} (o : outcome A) : M A := fun w => (o, w).

Definition record (e : event) (w : World) : World :=
  {| cwd := cwd w; files := files w; trace := trace w ++ [e] |}.

Definition dquote : string := String "034" EmptyString.

Definition breadcrumb : string := "/tmp/git-pull-request-chdir".

Section Script.
Context (env : Env) (options : gmap string value).

(** [options[key]] *)
Definition option_ (key : string) : M value :=
  match options !! key with
  | Some v => mret v
  | None => raise (KeyError key)
  end.

(** [os.system(cmd)] *)
Definition os_system (cmd : string) : M Z := fun w =>
  (Returns (system_status env (trace w) cmd), record (System cmd) w).

(** [os.popen(cmd).read()] *)
Definition os_popen_read (cmd : string) : M string := fun w =>
  (Returns (popen_output env (trace w) cmd), record (Popen cmd) w).

(** [os.chdir(dir)] *)
Definition os_chdir (dir : value) : M unit := fun w =>
  match dir with
  | VStr d =>
      if chdir_ok env (trace w) d
      then (Returns tt,
            {| cwd := Py.path_join (cwd w) d; files := files w;
               trace := trace w ++ [Chdir d] |})
      else (Raises (OSError d), w)
  | _ => (Raises (TypeError "coercing to Unicode: need string or buffer"), w)
  end.

(** [f = open(path, 'wb'); f.write(data); f.close()] *)
Definition write_file (path : string) (data : value) : M unit := fun w =>
  match data with
  | VStr d =>
      (Returns tt,
       {| cwd := cwd w; files := <[path := d]> (files w);
          trace := trace w ++ [WriteFile path d] |})
  | _ =>
      (Raises (TypeError "must be string or buffer"),
       {| cwd := cwd w; files := <[path := ""]> (files w);
          trace := trace w ++ [WriteFile path ""] |})
  end.

Definition os_path_islink (path : string) : M bool := fun w =>
  (Returns (islink env (trace w) path), w).

Definition os_readlink (path : string) : M string := fun w =>
  match readlink env (trace w) path with
  | Some target => (Returns target, w)
  | None => (Raises (OSError path), w)
  end.

Definition chdir (dir : value) : M unit := write_file breadcrumb dir.

Definition github_json_request (url : string)
    (params : option (list (string * string))) : M Reply := fun w =>
  let w' := record (Request url params) w in
  match urlopen env (trace w) url params with
  | HTTPError msg =>
      (Raises (UserWarning
         ("Error communicating with github: " ++ url ++ String "010" msg)), w')
  | NoConnection => (Raises (URLError url), w')
  | Body data =>
      if (data =? "")%string
      then (Raises (UserWarning "Invalid response from github"), w')
      else match json_loads env data with
           | Some reply => (Returns reply, w')
           | None => (Raises (ValueError "No JSON object could be decoded"), w')
           end
  end.

Definition post_comment (repo_name : string) (pull_request_ID : Z)
    (comment : value) : M unit :=
  let url := "http://github.com/api/v2/json/issues/comment/"
               ++ repo_name ++ "/" ++ Py.str pull_request_ID in
  _ ← github_json_request url (Some [("comment", value_str comment)]);
  mret tt.

Definition close_pull_request (repo_name : string) (pull_request_ID : Z)
    (comment : value) : M unit :=
  comment ← match comment with
            | VNone => option_ "close-default-comment"
            | _ => mret comment
            end;
  _ ← match comment with
      | VNone | VStr "" => mret tt
      | _ => post_comment repo_name pull_request_ID comment
      end;
  let url := "http://github.com/api/v2/json/issues/close/"
               ++ repo_name ++ "/" ++ Py.str pull_request_ID in
  _ ← github_json_request url None;
  mret tt.

Definition get_current_branch_name (ensure_pull_request : bool) : M string :=
  out ← os_popen_read "git rev-parse --abbrev-ref HEAD";
  let branch_name := Py.strip out in
  if ensure_pull_request
     && negb (Py.slice_to 13 branch_name =? "pull-request-")%string
  then raise (UserWarning "Invalid branch: not a pull request")
  else mret branch_name.

Definition get_git_base_path : M string :=
  out ← os_popen_read "git rev-parse --show-toplevel";
  mret (Py.strip out).

Definition get_original_dir_path : M string :=
  git_base_path ← get_git_base_path;
  config_path ←
    os_readlink (Py.path_join (Py.path_join git_base_path ".git") "config");
  mret (Py.dirname (Py.dirname config_path)).

Definition get_pull_request (repo_name : string) (pull_request_ID : Z)
    : M PullRequest :=
  let url := "http://github.com/api/v2/json/pulls/"
               ++ repo_name ++ "/" ++ Py.str pull_request_ID in
  data ← github_json_request url None;
  match pull data with
  | Some pr => mret pr
  | None => raise (KeyError "pull")
  end.

(** [^<remote_name>[^\n]+?github\.com[^\n]*?[:/]([^\n]+?)\.git], where
    the characters of [remote_name] stand for themselves (as they do for
    ["upstream"] and ["origin"], the names the script passes). *)
Definition remote_pattern (remote_name : string) : list Re.item :=
  Re.Bol :: Re.lits remote_name
    ++ [Re.Rep false 1 Re.not_newline]
    ++ Re.lits "github.com"
    ++ [Re.Rep false 0 Re.not_newline;
        Re.Cls (fun c => Ascii.eqb c ":" || Ascii.eqb c "/");
        Re.GOpen; Re.Rep false 1 Re.not_newline; Re.GClose]
    ++ Re.lits ".git".

Definition get_repo_name_for_remote (remote_name : string) : M (option string) :=
  remotes ← os_popen_read "git remote -v";
  let m := Re.search true (remote_pattern remote_name) remotes in
  match m with
  | Some m =>
      match Re.group1 m with
      | Some g => if negb (g =? "")%string then mret (Some g) else mret None
      | None => mret None
      end
  | None => mret None
  end.

Definition in_work_dir : M bool :=
  git_base_path ← get_git_base_path;
  os_path_islink (Py.path_join (Py.path_join git_base_path ".git") "config").

(** Prints only. *)
Definition display_pull_request (pull_request : PullRequest) : M unit :=
  mret tt.

Definition display_status : M unit :=
  _ ← get_current_branch_name false;
  mret tt.

Definition open_URL (url : string) : M unit :=
  _ ← os_system ("open " ++ dquote ++ url ++ dquote);
  mret tt.
End Script.

(** ** The update state machine and the commands *)

(** The messages by which the script tells its failures apart. *)
Definition InvalidBranchError : exn :=
  UserWarning "Invalid branch: not a pull request".

Definition InWorkDirectoryError : exn :=
  UserWarning ("Cannot perform an update from within the work directory."
    ++ String "010" "If you are done fixing conflicts run 'gitpr continue-update' to complete the update.").

Definition UnresolvedConflictError : exn :=
  UserWarning ("Updating from master failed"
    ++ String "010" "Resolve conflicts and 'git add' files, then run 'gitpr continue-update'").

Definition ConflictError (branch_name : string) : exn :=
  UserWarning ("Updating " ++ branch_name ++ " from master failed"
    ++ String "010" "Resolve conflicts and 'git add' files, then run 'gitpr continue-update'").

Definition NoReviewerError : exn :=
  UserWarning "Could not determine a repo to submit this pull request to".

Definition reset_and_clean : string := "git reset --hard && git clean -f".

Section Commands.
Context (env : Env) (options : gmap string value).

Definition complete_update (branch_name : string) : M unit :=
  inside ← in_work_dir env;
  if inside : bool then
    ret ← os_system env "git checkout master";
    if negb (ret =? 0) then
      raise (UserWarning "Could not checkout master branch in work directory")
    else
      original_dir_path ← get_original_dir_path env;
      _ ← os_chdir env (VStr original_dir_path);
      _ ← chdir (VStr original_dir_path);
      current ← get_current_branch_name env false;
      if (current =? branch_name)%string then
        ret ← os_system env reset_and_clean;
        if negb (ret =? 0) then
          raise (UserWarning
            ("Syncing branch " ++ branch_name ++ " with work directory failed"))
        else mret tt
      else
        ret ← os_system env ("git checkout " ++ branch_name);
        if negb (ret =? 0) then
          raise (UserWarning ("Could not checkout " ++ branch_name))
        else mret tt
  else mret tt.

(** The local [ret] of [continue_update] is bound only by the two
    branches of the [if]/[elif]; [None] is the unbound variable. *)
Definition continue_update : M unit :=
  method ← option_ options "update-method";
  ret ← (if value_eqb_str method "merge" then
           r ← os_system env "git commit"; mret (Some r)
         else if value_eqb_str method "rebase" then
           r ← os_system env "git rebase --continue"; mret (Some r)
         else mret None);
  match ret with
  | None => raise (UnboundLocalError "ret")
  | Some ret =>
      if negb (ret =? 0) then raise UnresolvedConflictError
      else
        branch_name ← get_current_branch_name env true;
        complete_update branch_name
  end.

(** In [update_branch] the local [ret] already holds the status of the
    checkout when the update method is looked at. *)
Definition update_branch (branch_name : string) : M unit :=
  inside ← in_work_dir env;
  if inside : bool then raise InWorkDirectoryError
  else
    work_dir ← option_ options "work-dir";
    _ ← (if truthy work_dir then
           _ ← os_chdir env work_dir;
           ret ← os_system env reset_and_clean;
           if negb (ret =? 0) then
             raise (UserWarning
               "Cleaning up work directory failed, update not performed")
           else mret tt
         else mret tt);
    ret ← os_system env ("git checkout " ++ branch_name);
    if negb (ret =? 0) then
      work_dir ← option_ options "work-dir";
      if truthy work_dir then
        raise (UserWarning ("Could not checkout " ++ branch_name
                 ++ " in the work directory, update not performed"))
      else
        raise (UserWarning ("Could not checkout " ++ branch_name
                 ++ ", update not performed"))
    else
      method ← option_ options "update-method";
      ret ← (if value_eqb_str method "merge" then os_system env "git merge master"
             else if value_eqb_str method "rebase" then
               os_system env "git rebase master"
             else mret ret);
      if negb (ret =? 0) then
        work_dir ← option_ options "work-dir";
        _ ← (if truthy work_dir then chdir work_dir else mret tt);
        raise (ConflictError branch_name)
      else complete_update branch_name.

Definition command_continue_update : M unit :=
  _ ← continue_update;
  display_status env.

Definition command_merge (repo_name : string) (comment : value) : M unit :=
  branch_name ← get_current_branch_name env true;
  pull_request_ID ← lift (get_pull_request_ID branch_name);
  ret ← os_system env "git checkout master";
  if negb (ret =? 0) then raise (UserWarning "Could not checkout master")
  else
    ret ← os_system env ("git merge " ++ branch_name);
    if negb (ret =? 0) then
      raise (UserWarning ("Merge with master failed. Resolve conflicts, switch"
               ++ "back into the pull request branch, and merge again"))
    else
      ret ← os_system env ("git branch -D " ++ branch_name);
      if negb (ret =? 0) then raise (UserWarning "Could not delete branch")
      else
        auto_close ← option_ options "merge-auto-close";
        _ ← (if truthy auto_close
             then close_pull_request env options repo_name pull_request_ID comment
             else mret tt);
        display_status env.

Definition command_close (repo_name : string) (comment : value) : M unit :=
  branch_name ← get_current_branch_name env true;
  pull_request_ID ← lift (get_pull_request_ID branch_name);
  pull_request ← get_pull_request env repo_name pull_request_ID;
  _ ← display_pull_request pull_request;
  _ ← close_pull_request env options repo_name pull_request_ID comment;
  ret ← os_system env "git checkout master";
  if negb (ret =? 0) then raise (UserWarning "Could not checkout master")
  else
    ret ← os_system env ("git branch -D " ++ branch_name);
    if negb (ret =? 0) then raise (UserWarning "Could not delete branch")
    else display_status env.

Definition none_or_empty (s : option string) : bool :=
  match s with
  | None => true
  | Some s => (s =? "")%string
  end.

Definition command_submit (repo_name username : string)
    (reviewer_name pull_body pull_title : option string) : M unit :=
  branch_name ← get_current_branch_name env false;
  reviewer_name ← (if none_or_empty reviewer_name
                   then get_repo_name_for_remote env "upstream"
                   else mret reviewer_name);
  match reviewer_name with
  | None | Some "" => raise NoReviewerError
  | Some reviewer_name =>
      ret ← os_system env ("git push origin " ++ branch_name);
      if negb (ret =? 0) then
        raise (UserWarning "Could not push this branch to your origin")
      else
        let url := "http://github.com/api/v2/json/pulls/"
                     ++ Py.replace username reviewer_name repo_name in
        let pull_body := match pull_body with Some b => b | None => "" end in
        let pull_title :=
          if none_or_empty pull_title
          then build_pull_request_title branch_name
          else match pull_title with Some t => t | None => "" end in
        let params := [("pull[base]", "master");
                       ("pull[head]", username ++ ":" ++ branch_name);
                       ("pull[title]", pull_title);
                       ("pull[body]", pull_body)] in
        data ← github_json_request env url (Some params);
        match pull data with
        | None => raise (KeyError "pull")
        | Some pull_request =>
            _ ← display_pull_request pull_request;
            _ ← display_status env;
            open_github ← option_ options "submit-open-github";
            if truthy open_github then open_URL env (html_url pull_request)
            else mret tt
        end
  end.

(** [main], from the point where the command-line options have been read
    and the repository name is known, for the command [submit]:
    [reviewer_name] is the argument of [-u] ([None] without it) and
    [args] are the words after [submit]. *)
Definition main_submit (repo_name username : string)
    (reviewer_name : option string) (args : list string) : M unit :=
  reviewer_name ← (if none_or_empty reviewer_name
                   then out ← os_popen_read env "git config github.reviewer";
                        mret (Some (Py.strip out))
                   else mret reviewer_name);
  let pull_body := nth_error args 0 in
  let pull_title := nth_error args 1 in
  command_submit repo_name username reviewer_name pull_body pull_title.
End Commands.

(** A starting point: nothing done yet, the breadcrumb file absent. *)
Definition fresh (dir : string) : World :=
  {| cwd := dir; files := ∅; trace := [] |}.

(** * The rest of the commands *)

Definition get_repo_url (pull_request : PullRequest) : string :=
  let repo_url := Py.replace "https" "git" (url (repository (head pull_request))) in
  let private_repo := private (repository (head pull_request)) in
  if private_repo
  then Py.replace "git://github.com/" "git@github.com:" repo_url
  else repo_url.

Section Fetching.
(** [loads_pulls] is [json.loads] seen through the key [pulls]: [None]
    when the body is not JSON, [Some None] when the key is missing. *)
Context (env : Env) (options : gmap string value)
  (loads_pulls : string -> option (option (list PullRequest))).


(** [get_pull_request] for an ID given as a word of the command line:
    ['%s' % pull_request_ID] is then the word itself. *)
Definition get_pull_request_word (repo_name pull_request_ID : string)
    : M PullRequest :=
  let url := "http://github.com/api/v2/json/pulls/"
               ++ repo_name ++ "/" ++ pull_request_ID in
  data ← github_json_request env url None;
  match pull data with
  | Some pr => mret pr
  | None => raise (KeyError "pull")
  end.


(** The command line of [fetch_pull_request]. *)
Definition git_fetch (pull_request : PullRequest) : string :=
  "git fetch " ++ get_repo_url pull_request ++ " " ++ ref (head pull_request)
    ++ ":" ++ build_branch_name pull_request.

Definition fetch_pull_request (pull_request : PullRequest) : M string :=
  let branch_name := build_branch_name pull_request in
  ret ← os_system env (git_fetch pull_request);
  if negb (ret =? 0) then raise (UserWarning "Fetch failed")
  else mret branch_name.

Definition command_fetch (repo_name pull_request_ID : string)
    (auto_update : value) : M unit :=
  pull_request ← get_pull_request_word repo_name pull_request_ID;
  _ ← display_pull_request pull_request;
  branch_name ← fetch_pull_request pull_request;
  _ ← (if truthy auto_update then update_branch env options branch_name
       else
         auto_checkout ← option_ options "fetch-auto-checkout";
         if truthy auto_checkout then
           ret ← os_system env ("git checkout " ++ branch_name);
           if negb (ret =? 0) then
             raise (UserWarning ("Could not checkout " ++ branch_name))
           else mret tt
         else mret tt);
  display_status env.







Definition command_pull (repo_name : string) : M unit :=
  branch_name ← get_current_branch_name env true;
  pull_request_ID ← lift (get_pull_request_ID branch_name);
  pull_request ← get_pull_request env repo_name pull_request_ID;
  let repo_url := get_repo_url pull_request in
  ret ← os_system env ("git pull " ++ repo_url ++ " " ++ ref (head pull_request));
  if negb (ret =? 0) then raise (UserWarning "Pull failed, resolve conflicts")
  else display_status env.

Definition get_default_repo_name : M string :=
  out ← os_popen_read env "git config github.repo";
  let repo_name := Some (Py.strip out) in
  repo_name ← (if none_or_empty repo_name
               then get_repo_name_for_remote env "origin"
               else mret repo_name);
  match repo_name with
  | None | Some "" => raise (UserWarning "Failed to determine github repository name")
  | Some repo_name => mret repo_name
  end.
End Fetching.

(** ** Reading the options

    [load_options] reads the output of [git config -l] with
    [re.findall] and a pattern of two groups under [re.MULTILINE]; the
    matcher below adds the end of line and numbered groups to the items
    of [Re]. *)

Module Findall.
Local Open Scope nat_scope.

Inductive item : Type :=
| Lit (c : ascii)
| Cls (p : ascii -> bool)
| Rep (greedy : bool) (min : nat) (p : ascii -> bool)
| Bol
| Eol
| Open (n : nat)
| Close (n : nat).

Fixpoint lits (s : string) : list item :=
  match s with
  | String c s' => Lit c :: lits s'
  | EmptyString => []
  end.

(** Where each group was opened, and its span once closed. *)
Record groups : Type := {
  starts : nat -> nat;
  spans : nat -> option (nat * nat)
}.

Definition no_groups : groups :=
  {| starts := fun _ => 0; spans := fun _ => None |}.

Definition set {A : Type} (n : nat) (x : A) (f : nat -> A) : nat -> A :=
  fun m => if Nat.eqb m n then x else f m.

(** [$]: the end of the text or, under [re.MULTILINE], before a
    newline; without it, before a newline that ends the text. *)
Definition at_eol (multiline : bool) (s : string) : bool :=
  match s with
  | EmptyString => true
  | String c s' =>
      Ascii.eqb c "010"
      && (multiline || match s' with EmptyString => true | _ => false end)
  end.

Fixpoint match_items (multiline : bool) (its : list item) (g : groups)
    (prev : option ascii) (i : nat) (s : string) : option (nat * groups) :=
  match its with
  | [] => Some (i, g)
  | Lit c :: its' =>
      match s with
      | String c' s' =>
          if Ascii.eqb c' c
          then match_items multiline its' g (Some c') (S i) s'
          else None
      | EmptyString => None
      end
  | Cls p :: its' =>
      match s with
      | String c' s' =>
          if p c' then match_items multiline its' g (Some c') (S i) s' else None
      | EmptyString => None
      end
  | Rep greedy n p :: its' =>
      Re.rep_min n p
        ((if greedy then Re.rep_greedy else Re.rep_lazy) p
           (fun prev' i' s' => match_items multiline its' g prev' i' s'))
        prev i s
  | Bol :: its' =>
      if Re.at_bol multiline prev then match_items multiline its' g prev i s
      else None
  | Eol :: its' =>
      if at_eol multiline s then match_items multiline its' g prev i s
      else None
  | Open n :: its' =>
      match_items multiline its'
        {| starts := set n i (starts g); spans := spans g |} prev i s
  | Close n :: its' =>
      match_items multiline its'
        {| starts := starts g;
           spans := set n (Some (starts g n, i)) (spans g) |} prev i s
  end.

(** [m.group(n)] as [findall] reports it: the empty string for a group
    that took no part in the match. *)
Definition group (whole : string) (g : groups) (n : nat) : string :=
  match spans g n with
  | Some (a, b) => substring a (b - a) whole
  | None => ""
  end.

(** The scan of [findall] over [s], the text from offset [i] on: a
    match is tried at each offset but the [skip] next ones, which the
    match before covers.  After an empty match the scan resumes one
    character further. *)
Fixpoint findall_from (multiline : bool) (its : list item) (whole : string)
    (skip : nat) (prev : option ascii) (i : nat) (s : string)
  : list (string * string) :=
  match skip with
  | S skip' =>
      match s with
      | String c s' => findall_from multiline its whole skip' (Some c) (S i) s'
      | EmptyString => []
      end
  | O =>
      match match_items multiline its no_groups prev i s with
      | Some (e, g) =>
          (group whole g 1, group whole g 2)
          :: match s with
             | String c s' =>
                 findall_from multiline its whole (e - i - 1) (Some c) (S i) s'
             | EmptyString => []
             end
      | None =>
          match s with
          | String c s' => findall_from multiline its whole 0 (Some c) (S i) s'
          | EmptyString => []
          end
      end
  end.

(** [re.findall(pattern, s)] for a pattern with two groups: the pairs
    of the groups of the matches, from left to right, none overlapping
    another. *)
Definition findall (multiline : bool) (its : list item) (s : string)
  : list (string * string) :=
  findall_from multiline its s 0 None 0 s.

End Findall.

(** [str.lower()] on the bytes of a Python 2 string *)
Definition lower_char (c : ascii) : ascii :=
  if Py.in_range "A" "Z" c then ascii_of_N (N_of_ascii c + 32) else c.

Fixpoint lower (s : string) : string :=
  match s with
  | String c s' => String (lower_char c) (lower s')
  | EmptyString => EmptyString
  end.

(** The pattern of [load_options]: at the start of a line the text
    [git-pull-request.], group 1 of one or more characters other than
    [=], the character [=], group 2 of characters other than a newline,
    the end of the line. *)
Definition option_pattern : list Findall.item :=
  (Findall.Bol :: Findall.lits "git-pull-request."
   ++ [Findall.Open 1;
       Findall.Rep true 1 (fun c => negb (Ascii.eqb c "="));
       Findall.Close 1;
       Findall.Lit "=";
       Findall.Open 2;
       Findall.Rep true 0 Re.not_newline;
       Findall.Close 2;
       Findall.Eol])%list.

Definition one_of (words : list string) (s : string) : bool :=
  existsb (String.eqb s) words.

(** The value an option takes from its text in the configuration. *)
Definition option_value (text : string) : value :=
  if one_of ["f"; "false"; "no"] (lower text) then VBool false
  else if one_of ["t"; "true"; "yes"] (lower text) then VBool true
  else if one_of [""; "none"; "null"; "nil"] (lower text) then VNone
  else VStr text.

Section Options.
Context (env : Env).

(** The options are a global dictionary in the script; here
    [load_options] takes them and returns them updated. *)
Definition load_options (options : gmap string value)
  : M (gmap string value) :=
  out ← os_popen_read env "git config -l";
  let all_config := Py.strip out in
  let matches := Findall.findall true option_pattern all_config in
  mret (fold_left (fun options k => <[fst k := option_value (snd k)]> options)
          matches options).

End Options.

(** * Vocabulary of the properties *)

Section StringVocabulary.
Local Open Scope nat_scope.

(** ** Runs of characters of one class *)

(** The longest prefix of [s] made of characters of the class, and what
    follows it. *)
Fixpoint take_run (p : ascii -> bool) (s : string) : string :=
  match s with
  | String c s' => if p c then String c (take_run p s') else ""
  | EmptyString => ""
  end.

Fixpoint drop_run (p : ascii -> bool) (s : string) : string :=
  match s with
  | String c s' => if p c then drop_run p s' else s
  | EmptyString => ""
  end.

(** [s] begins with a character of the class. *)
Definition begins (p : ascii -> bool) (s : string) : bool :=
  match s with
  | String c _ => p c
  | EmptyString => false
  end.

(** The character before the position reached after reading [s]. *)
Fixpoint last_char (prev : option ascii) (s : string) : option ascii :=
  match s with
  | String c s' => last_char (Some c) s'
  | EmptyString => prev
  end.

(** A continuation for which giving characters back never helps: it
    either always succeeds or refuses every text that begins with a
    character of the repeated class. *)
Definition settled {R : Type} (p : ascii -> bool) (k : @Re.cont R) : Prop :=
  (forall prev i s, k prev i s <> None)
  \/ (forall c prev i s, p c = true -> k prev i (String c s) = None).

(** ** Issue keys *)

(** [k] is in the language of [[A-Z]{3,}-\d+]. *)
Definition issue_key (k : string) : Prop :=
  exists u d,
    k = u ++ "-" ++ d
    /\ Py.all_chars Re.upper u = true /\ 3 <= String.length u
    /\ Py.all_chars Re.digit d = true /\ 1 <= String.length d.

(** The key at the start of [s], read off directly. *)
Definition key_scan (s : string) : option string :=
  let u := take_run Re.upper s in
  if 3 <=? String.length u then
    match drop_run Re.upper s with
    | String c r =>
        if Ascii.eqb c "-" then
          let d := take_run Re.digit r in
          if 1 <=? String.length d then Some (u ++ "-" ++ d) else None
        else None
    | EmptyString => None
    end
  else None.

(** [k] is the longest key at the start of [s]. *)
Definition longest_key_prefix (s k : string) : Prop :=
  issue_key k
  /\ (exists rest, s = k ++ rest)
  /\ forall k' rest', issue_key k' -> s = k' ++ rest' ->
       String.length k' <= String.length k.

(** The first key of [s], searching from offset [i]. *)
Fixpoint find_key (i : nat) (s : string) : option (nat * string) :=
  match key_scan s with
  | Some k => Some (i, k)
  | None =>
      match s with
      | String _ s' => find_key (S i) s'
      | EmptyString => None
      end
  end.

(** [k] lies in [s] at offset [i]. *)
Definition occurs_at (i : nat) (k s : string) : Prop :=
  exists a b, s = a ++ k ++ b /\ String.length a = i.

End StringVocabulary.

(** ** Decimal numerals *)

(** The value of a digit string, most significant digit first. *)
Definition digit_value (c : ascii) : Z := Z.of_N (N_of_ascii c) - 48.

(** Horner evaluation, starting from [acc]. *)
Fixpoint decimal_value (acc : Z) (s : string) : Z :=
  match s with
  | String c s' => decimal_value (10 * acc + digit_value c) s'
  | EmptyString => acc
  end.

(** The same on the digit lists of the standard library. *)
Fixpoint horner (acc : N) (u : uint) : N :=
  match u with
  | Nil => acc
  | D0 l => horner (10 * acc) l
  | D1 l => horner (10 * acc + 1) l
  | D2 l => horner (10 * acc + 2) l
  | D3 l => horner (10 * acc + 3) l
  | D4 l => horner (10 * acc + 4) l
  | D5 l => horner (10 * acc + 5) l
  | D6 l => horner (10 * acc + 6) l
  | D7 l => horner (10 * acc + 7) l
  | D8 l => horner (10 * acc + 8) l
  | D9 l => horner (10 * acc + 9) l
  end%N.

(** ** Starting an update, the breadcrumb file, the reviewer *)

(** The first steps of [update_branch] have succeeded: from [w], outside
    the work directory, the target branch has been checked out, in the
    work directory (entered and cleaned first) when one is configured;
    [w1] is the world just after the checkout. *)
Inductive checked_out (env : Env) (options : gmap string value)
    (branch_name : string) (w : World) : World -> Prop :=
| checked_out_primary (work_dir : value) :
    fst (in_work_dir env w) = Returns false ->
    options !! "work-dir" = Some work_dir ->
    truthy work_dir = false ->
    system_status env (trace w ++ [Popen "git rev-parse --show-toplevel"])
      ("git checkout " ++ branch_name) = 0 ->
    checked_out env options branch_name w
      {| cwd := cwd w; files := files w;
         trace := trace w ++ [Popen "git rev-parse --show-toplevel";
                              System ("git checkout " ++ branch_name)] |}
| checked_out_work_dir (dir : string) :
    fst (in_work_dir env w) = Returns false ->
    options !! "work-dir" = Some (VStr dir) ->
    dir <> "" ->
    chdir_ok env (trace w ++ [Popen "git rev-parse --show-toplevel"]) dir = true ->
    system_status env
      (trace w ++ [Popen "git rev-parse --show-toplevel"; Chdir dir])
      reset_and_clean = 0 ->
    system_status env
      (trace w ++ [Popen "git rev-parse --show-toplevel"; Chdir dir;
                   System reset_and_clean])
      ("git checkout " ++ branch_name) = 0 ->
    checked_out env options branch_name w
      {| cwd := Py.path_join (cwd w) dir; files := files w;
         trace := trace w ++ [Popen "git rev-parse --show-toplevel"; Chdir dir;
                              System reset_and_clean;
                              System ("git checkout " ++ branch_name)] |}.

(** What is left of [update_branch] once the branch is checked out; the
    local [ret] is zero at that point. *)
Definition update_branch_rest (env : Env) (options : gmap string value)
    (branch_name : string) : M unit :=
  method ← option_ options "update-method";
  ret ← (if value_eqb_str method "merge" then os_system env "git merge master"
         else if value_eqb_str method "rebase" then os_system env "git rebase master"
         else mret 0);
  if negb (ret =? 0) then
    work_dir ← option_ options "work-dir";
    _ ← (if truthy work_dir then chdir work_dir else mret tt);
    raise (ConflictError branch_name)
  else complete_update env branch_name.

(** Every change of directory in [t] is followed at once by a write of
    that directory to the breadcrumb file. *)
Fixpoint switches_recorded (t : list event) : bool :=
  match t with
  | Chdir d :: t' =>
      match t' with
      | WriteFile p d' :: _ => (p =? breadcrumb)%string && (d' =? d)%string
      | _ => false
      end && switches_recorded t'
  | _ :: t' => switches_recorded t'
  | [] => true
  end.

(** No reviewer repository was found. *)
Definition unresolved (o : outcome (option string)) : Prop :=
  o = Returns None \/ o = Returns (Some "").

(** ** Occurrences *)

(** [old] occurs somewhere in [s]. *)
Fixpoint occurs (old s : string) : bool :=
  String.prefix old s
  || match s with
     | String _ s' => occurs old s'
     | EmptyString => false
     end.

(** ** What an update may do *)

(** The actions of the update state machine: the two queries, the
    commands of an update, changes of directory and writes of the
    breadcrumb file. *)
Definition update_step (e : event) : Prop :=
  match e with
  | System cmd =>
      In cmd [reset_and_clean; "git merge master"; "git rebase master";
              "git commit"; "git rebase --continue"]
      \/ exists branch_name, cmd = "git checkout " ++ branch_name
  | Popen cmd =>
      In cmd ["git rev-parse --show-toplevel"; "git rev-parse --abbrev-ref HEAD"]
  | Chdir _ => True
  | WriteFile path _ => path = breadcrumb
  | Request _ _ => False
  end.

(** The actions of an update in a checkout without work directory. *)
Definition plain_step (branch_name : string) (e : event) : Prop :=
  e = Popen "git rev-parse --show-toplevel"
  \/ e = System ("git checkout " ++ branch_name)
  \/ e = System "git merge master"
  \/ e = System "git rebase master".

(** ** Where a word does not begin *)

(** [old] begins at none of the positions of [a] in [a ++ tail]. *)
Fixpoint none_before (old a tail : string) : bool :=
  match a with
  | EmptyString => true
  | String _ a' => negb (String.prefix old (a ++ tail)) && none_before old a' tail
  end.

(** [a] is a run a lazy repetition of [[^\n]+?] stops after, before
    [old]: it is not empty, holds no newline, and [old] begins at none
    of its positions after the first, [tail] following it. *)
Definition lazy_stop (old a tail : string) : bool :=
  match a with
  | EmptyString => false
  | String _ a' =>
      Py.all_chars Re.not_newline a && none_before old a' tail
  end.

(** A character that stands for itself in a pattern: a letter, a
    digit, a hyphen or an underscore. *)
Definition plain_char (c : ascii) : bool :=
  Py.in_range "a" "z" c || Py.in_range "A" "Z" c || Re.digit c
  || Ascii.eqb c "-" || Ascii.eqb c "_".

(** A line of [git remote -v] for a repository at GitHub. *)
Definition remote_line (name mid : string) (sep : ascii) (repo rest : string)
  : string :=
  name ++ mid ++ "github.com" ++ String sep (repo ++ ".git" ++ rest).

(** ** The text of a configuration *)

(** A line that sets an option, with the text that leads to it from the
    setting before. *)
Record setting : Type := {
  lead : string;
  key : string;
  text : string
}.

Definition option_line (key text : string) : string :=
  "git-pull-request." ++ key ++ "=" ++ text.

Fixpoint config_text (settings : list setting) (final : string) : string :=
  match settings with
  | [] => final
  | x :: rest =>
      lead x ++ option_line (key x) (text x) ++ config_text rest final
  end.

(** Each setting stands on a line of its own, with a key that is not
    empty, and [git-pull-request.] begins nowhere else. *)
Fixpoint well_formed (settings : list setting) (final : string) : bool :=
  match settings with
  | [] => negb (occurs "git-pull-request." final)
  | x :: rest =>
      let after := config_text rest final in
      Re.at_bol true (last_char None (lead x))
      && none_before "git-pull-request." (lead x)
           (option_line (key x) (text x) ++ after)
      && negb (key x =? "")%string
      && Py.all_chars (fun c => negb (Ascii.eqb c "=")) (key x)
      && Py.all_chars Re.not_newline (text x)
      && Findall.at_eol true after
      && well_formed rest final
  end.

(** The options after the settings, taken in order. *)
Definition apply_settings (settings : list setting)
    (options : gmap string value) : gmap string value :=
  fold_left (fun options x => <[key x := option_value (text x)]> options)
    settings options.

(** ** More vocabulary *)

(** A character that is no capital letter. *)
Definition not_upper (c : ascii) : bool := negb (Re.upper c).





(** ** Example data *)

Definition example_pull_request (n : Z) (head_ref : string) : PullRequest :=
  {| number := n; title := "Fix"; body := "";
     user := {| name := "A. Developer"; login := "adev" |};
     head := {| ref := head_ref;
                repository := {| url := "https://github.com/adev/project";
                                 private := false |} |};
     html_url := "https://github.com/owner/project/pull/1" |}.

(** Surroundings for the examples: git answers by command alone, every
    directory can be entered, and [link] is what [.git/config] points to
    when it is a symbolic link. *)
Definition example_env (status : string -> Z) (output : string -> string)
    (link : option string) : Env :=
  {| system_status := fun _ cmd => status cmd;
     popen_output := fun _ cmd => output cmd;
     chdir_ok := fun _ _ => true;
     islink := fun _ _ => match link with Some _ => true | None => false end;
     readlink := fun _ _ => link;
     urlopen := fun _ _ _ => HTTPError "HTTP Error 404: Not Found";
     json_loads := fun _ => None |}.

(** What git prints on the branch [branch_name] of
    [/home/dev/project]. *)
Definition on_branch (branch_name : string) (cmd : string) : string :=
  if (cmd =? "git rev-parse --abbrev-ref HEAD")%string
  then branch_name ++ String "010" ""
  else if (cmd =? "git rev-parse --show-toplevel")%string
  then "/home/dev/project" ++ String "010" ""
  else "".

(** Every command succeeds but [bad]. *)
Definition failing (bad : string) (cmd : string) : Z :=
  if (cmd =? bad)%string then 256 else 0.

Definition squash_options : gmap string value :=
  <["update-method" := VStr "squash"]> default_options.

(** Whether the last change of directory in [t] was into [dir]. *)
Fixpoint last_chdir_is (dir : string) (t : list event) (acc : bool) : bool :=
  match t with
  | Chdir d :: t' => last_chdir_is dir t' (d =? dir)%string
  | _ :: t' => last_chdir_is dir t' acc
  | [] => acc
  end.

(** A checkout in [/home/dev/project] with the work directory
    [/home/dev/work], whose [.git/config] is a link into the former. *)
Definition work_dir_env (status : string -> Z) (output : string -> string) : Env :=
  {| system_status := fun _ cmd => status cmd;
     popen_output := fun _ cmd => output cmd;
     chdir_ok := fun _ _ => true;
     islink := fun t _ => last_chdir_is "/home/dev/work" t false;
     readlink := fun t _ =>
       if last_chdir_is "/home/dev/work" t false
       then Some "/home/dev/project/.git/config" else None;
     urlopen := fun _ _ _ => HTTPError "HTTP Error 404: Not Found";
     json_loads := fun _ => None |}.

Definition work_dir_options : gmap string value :=
  <["work-dir" := VStr "/home/dev/work"]> default_options.

(** What git prints on the branch [LPS-1234] of a repository without
    remotes and without a configured reviewer. *)
Definition no_remotes (cmd : string) : string :=
  if (cmd =? "git rev-parse --abbrev-ref HEAD")%string
  then "LPS-1234" ++ String "010" ""
  else "".

(** What git prints in a clone with the remotes [origin] and [upstream]
    on github. *)
Definition with_upstream (cmd : string) : string :=
  if (cmd =? "git rev-parse --abbrev-ref HEAD")%string
  then "LPS-1234" ++ String "010" ""
  else if (cmd =? "git remote -v")%string
  then "origin" ++ String "009" "git@github.com:adev/project.git (fetch)"
       ++ String "010" "upstream" ++ String "009"
       "git@github.com:owner/project.git (fetch)" ++ String "010" ""
  else "".


(** What [git config -l] prints in a clone that sets three options of
    the tool. *)
Definition example_config (cmd : string) : string :=
  if (cmd =? "git config -l")%string
  then "user.name=Dev" ++ String "010"
       "git-pull-request.work-dir=/home/dev/work" ++ String "010"
       "git-pull-request.update-method=rebase" ++ String "010"
       "git-pull-request.merge-auto-close=No" ++ String "010"
       "core.editor=vi" ++ String "010" ""
  else "".

Definition example_settings : list setting :=
  [ {| lead := "user.name=Dev" ++ String "010" "";
       key := "work-dir"; text := "/home/dev/work" |};
    {| lead := String "010" ""; key := "update-method"; text := "rebase" |};
    {| lead := String "010" ""; key := "merge-auto-close"; text := "No" |} ].

(** A pull request from a private repository. *)
Definition example_private_pull_request : PullRequest :=
  {| number := 7; title := "Fix"; body := "";
     user := {| name := "A. Developer"; login := "adev" |};
     head := {| ref := "LPS-7-fix";
                repository := {| url := "https://github.com/adev/secret";
                                 private := true |} |};
     html_url := "https://github.com/owner/secret/pull/7" |}.

(** A clone on [master] where every command succeeds and github
    answers with the pull request [pr]. *)
Definition pull_reply (pr : PullRequest) : Env :=
  {| system_status := fun _ _ => 0;
     popen_output := fun _ cmd => on_branch "master" cmd;
     chdir_ok := fun _ _ => true;
     islink := fun _ _ => false;
     readlink := fun _ _ => None;
     urlopen := fun _ _ _ => Body "{...}";
     json_loads := fun _ => Some {| pull := Some pr |} |}.



(** What git prints when only [github.repo] is configured. *)
Definition only_repo_config (cmd : string) : string :=
  if (cmd =? "git config github.repo")%string
  then "owner/project" ++ String "010" ""
  else "".

(** The script, moved into the work directory. *)
Definition in_work_directory : World :=
  {| cwd := "/home/dev/work"; files := ∅; trace := [Chdir "/home/dev/work"] |}.

(** * Facts about strings *)

Section StringFacts.
Local Open Scope nat_scope.

Lemma append_nil_r (s : string) : s ++ "" = s.
Proof. induction s as [|c s IH]; simpl; [reflexivity | now rewrite IH]. Qed.

Lemma append_assoc (a b c : string) : (a ++ b) ++ c = a ++ (b ++ c).
Proof. induction a as [|x a IH]; simpl; [reflexivity | now rewrite IH]. Qed.

Lemma length_append (a b : string) :
  String.length (a ++ b) = String.length a + String.length b.
Proof. induction a as [|x a IH]; simpl; [reflexivity | now rewrite IH]. Qed.

Lemma append_inv_head (a b c : string) : a ++ b = a ++ c -> b = c.
Proof. induction a as [|x a IH]; simpl; intros H; [exact H | injection H; auto]. Qed.

Lemma substring_prefix (k b : string) : substring 0 (String.length k) (k ++ b) = k.
Proof.
  induction k as [|c k IH]; simpl.
  - destruct b; reflexivity.
  - now rewrite IH.
Qed.

Lemma substring_middle (a k b : string) :
  substring (String.length a) (String.length k) (a ++ k ++ b) = k.
Proof.
  induction a as [|c a IH]; simpl; [apply substring_prefix | exact IH].
Qed.

Lemma slice_from_append (a b : string) : Py.slice_from (String.length a) (a ++ b) = b.
Proof. induction a as [|c a IH]; simpl; [now destruct b | exact IH]. Qed.

Lemma prefix_append (a b : string) : String.prefix a (a ++ b) = true.
Proof.
  induction a as [|c a IH]; simpl; [now destruct b |].
  destruct (ascii_dec c c); [exact IH | congruence].
Qed.

Lemma prefix_split (a s : string) :
  String.prefix a s = true -> s = a ++ Py.slice_from (String.length a) s.
Proof.
  revert s; induction a as [|c a IH]; intros s H; simpl.
  - reflexivity.
  - destruct s as [|c' s]; simpl in H; [discriminate |].
    destruct (ascii_dec c c'); [subst c' | discriminate].
    simpl. f_equal. now apply IH.
Qed.

Lemma prefix_false_append (a s b : string) :
  String.prefix a s = false -> s <> a ++ b.
Proof.
  intros H ->. now rewrite prefix_append in H.
Qed.

(** [s[0:n] == a] for an [a] of [n] characters is the prefix test. *)
Lemma slice_to_prefix (a s : string) :
  (Py.slice_to (String.length a) s =? a)%string = String.prefix a s.
Proof.
  unfold Py.slice_to.
  destruct (String.prefix a s) eqn:E.
  - apply String.eqb_eq. now apply prefix_correct.
  - apply String.eqb_neq. intros H. apply prefix_correct in H. congruence.
Qed.

Lemma take_drop_run p s : take_run p s ++ drop_run p s = s.
Proof.
  induction s as [|c s IH]; simpl; [reflexivity |].
  destruct (p c); simpl; [now rewrite IH | reflexivity].
Qed.

Lemma all_chars_take_run p s : Py.all_chars p (take_run p s) = true.
Proof.
  induction s as [|c s IH]; simpl; [reflexivity |].
  destruct (p c) eqn:E; simpl; [now rewrite E, IH | reflexivity].
Qed.

Lemma begins_drop_run p s : begins p (drop_run p s) = false.
Proof.
  induction s as [|c s IH]; simpl; [reflexivity |].
  destruct (p c) eqn:E; simpl; [exact IH | exact E].
Qed.

Lemma take_run_append p a b :
  Py.all_chars p a = true -> take_run p (a ++ b) = a ++ take_run p b.
Proof.
  induction a as [|c a IH]; simpl; [reflexivity |].
  intros H. apply andb_prop in H as [Hc Ha].
  now rewrite Hc, IH.
Qed.

Lemma drop_run_append p a b :
  Py.all_chars p a = true -> drop_run p (a ++ b) = drop_run p b.
Proof.
  induction a as [|c a IH]; simpl; [reflexivity |].
  intros H. apply andb_prop in H as [Hc Ha].
  now rewrite Hc, IH.
Qed.

Lemma take_run_stops p b : begins p b = false -> take_run p b = "".
Proof. destruct b as [|c b]; simpl; [reflexivity | now intros ->]. Qed.

Lemma drop_run_stops p b : begins p b = false -> drop_run p b = b.
Proof. destruct b as [|c b]; simpl; [reflexivity | now intros ->]. Qed.

Lemma take_run_exact p a b :
  Py.all_chars p a = true -> begins p b = false -> take_run p (a ++ b) = a.
Proof.
  intros Ha Hb.
  rewrite take_run_append by assumption.
  rewrite take_run_stops by assumption.
  apply append_nil_r.
Qed.

Lemma drop_run_exact p a b :
  Py.all_chars p a = true -> begins p b = false -> drop_run p (a ++ b) = b.
Proof.
  intros Ha Hb.
  rewrite drop_run_append by assumption.
  now apply drop_run_stops.
Qed.

Lemma all_chars_append p a b :
  Py.all_chars p (a ++ b) = Py.all_chars p a && Py.all_chars p b.
Proof.
  induction a as [|c a IH]; simpl; [reflexivity |].
  now rewrite IH, andb_assoc.
Qed.

Lemma upper_not_dash c : Re.upper c = true -> Ascii.eqb c "-" = false.
Proof.
  intros H. destruct (Ascii.eqb_spec c "-") as [->|]; [discriminate H | reflexivity].
Qed.

End StringFacts.

(** * Facts about the matcher *)

Section MatcherFacts.
Local Open Scope nat_scope.

Lemma rep_greedy_run {R : Type} p (k : @Re.cont R) :
  settled p k ->
  forall s prev i,
    Re.rep_greedy p k prev i s
    = k (last_char prev (take_run p s)) (i + String.length (take_run p s))
        (drop_run p s).
Proof.
  intros Hk. induction s as [|c s IH]; intros prev i; simpl.
  - now rewrite Nat.add_0_r.
  - destruct (p c) eqn:Hc; simpl.
    + rewrite IH. rewrite <- plus_n_Sm. simpl.
      destruct (k _ (S (i + _)) _) eqn:E; [reflexivity |].
      destruct Hk as [Hk | Hk]; [now apply Hk in E | now apply Hk].
    + now rewrite Nat.add_0_r.
Qed.

Lemma rep_run {R : Type} p (k : @Re.cont R) :
  settled p k ->
  forall n s prev i,
    Re.rep_min n p (Re.rep_greedy p k) prev i s
    = if n <=? String.length (take_run p s)
      then k (last_char prev (take_run p s)) (i + String.length (take_run p s))
             (drop_run p s)
      else None.
Proof.
  intros Hk. induction n as [|n IH]; intros s prev i.
  - simpl. now apply rep_greedy_run.
  - destruct s as [|c s]; simpl; [reflexivity |].
    destruct (p c) eqn:Hc; simpl; [| reflexivity].
    rewrite IH. now rewrite <- plus_n_Sm.
Qed.

Lemma match_lits ml l its g : forall prev i s,
  Re.match_items ml (Re.lits l ++ its) g prev i s
  = if String.prefix l s
    then Re.match_items ml its g (last_char prev l) (i + String.length l)
           (Py.slice_from (String.length l) s)
    else None.
Proof.
  induction l as [|c l IH]; intros prev i s.
  - simpl. rewrite Nat.add_0_r. now destruct s.
  - destruct s as [|c' s]; simpl; [reflexivity |].
    destruct (Ascii.eqb_spec c' c) as [->|Hne].
    + destruct (ascii_dec c c); [| congruence].
      change (Re.match_items ml (Re.lits l ++ its) g (Some c) (S i) s = 
              if String.prefix l s
              then Re.match_items ml its g (last_char (Some c) l)
                     (i + S (String.length l)) (Py.slice_from (String.length l) s)
              else None).
      rewrite IH. now rewrite <- plus_n_Sm.
    + destruct (ascii_dec c c'); [congruence | reflexivity].
Qed.

Lemma match_gopen ml its g prev i s :
  Re.match_items ml (Re.GOpen :: its) g prev i s
  = Re.match_items ml its (i, snd g) prev i s.
Proof. reflexivity. Qed.

(** A pattern anchored with [^] (without MULTILINE) matches at the start
    of the text or nowhere. *)
Lemma search_from_bol its whole : forall s c i,
  Re.search_from false (Re.Bol :: its) whole (Some c) i s = None.
Proof.
  induction s as [|c' s IH]; intros c i; simpl; [reflexivity | apply IH].
Qed.

Lemma search_bol its s :
  Re.search false (Re.Bol :: its) s
  = match Re.match_items false its (O, None) None 0 s with
    | Some (e, g) =>
        Some {| Re.m_string := s; Re.m_start := 0; Re.m_end := e;
                Re.m_group1 := snd g |}
    | None => None
    end.
Proof.
  unfold Re.search. destruct s as [|c s]; simpl.
  - now destruct (Re.match_items false its (0, None) None 0 "") as [[e g]|].
  - destruct (Re.match_items false its (0, None) None 0 (String c s)) as [[e g]|];
      [reflexivity | apply search_from_bol].
Qed.

Lemma key_core tail (fin : Re.groups -> nat -> Re.groups) :
  (forall g prev i s, Re.match_items false tail g prev i s = Some (i, fin g i)) ->
  forall g prev i s,
    Re.match_items false
      (Re.Rep true 3 Re.upper :: Re.Lit "-" :: Re.Rep true 1 Re.digit :: tail)
      g prev i s
    = match key_scan s with
      | Some k => Some (i + String.length k, fin g (i + String.length k))
      | None => None
      end.
Proof.
  intros Htail g prev i s.
  cbn [Re.match_items].
  rewrite rep_run.
  2:{ right. intros c prev' i' s' Hc. now rewrite (upper_not_dash c Hc). }
  unfold key_scan.
  destruct (3 <=? String.length (take_run Re.upper s)); [| reflexivity].
  destruct (drop_run Re.upper s) as [|c r]; [reflexivity |].
  destruct (Ascii.eqb c "-"); [| reflexivity].
  rewrite rep_run.
  2:{ left. intros prev' i' s'. now rewrite Htail. }
  destruct (1 <=? String.length (take_run Re.digit r)); [| reflexivity].
  rewrite Htail.
  rewrite length_append. simpl String.length.
  replace (S (i + String.length (take_run Re.upper s))
             + String.length (take_run Re.digit r))
    with (i + (String.length (take_run Re.upper s)
               + S (String.length (take_run Re.digit r)))) by lia.
  reflexivity.
Qed.

Lemma key_scan_sound s k :
  key_scan s = Some k ->
  issue_key k /\ exists rest, s = k ++ rest /\ begins Re.digit rest = false.
Proof.
  unfold key_scan.
  destruct (3 <=? String.length (take_run Re.upper s)) eqn:Hu; [| discriminate].
  destruct (drop_run Re.upper s) as [|c r] eqn:Hd; [discriminate |].
  destruct (Ascii.eqb_spec c "-") as [->|]; [| discriminate].
  destruct (1 <=? String.length (take_run Re.digit r)) eqn:Hn; [| discriminate].
  intros [= <-]. split.
  - exists (take_run Re.upper s), (take_run Re.digit r).
    repeat split.
    + apply all_chars_take_run.
    + now apply Nat.leb_le.
    + apply all_chars_take_run.
    + now apply Nat.leb_le.
  - exists (drop_run Re.digit r). split; [| apply begins_drop_run].
    rewrite append_assoc. simpl.
    rewrite take_drop_run, <- Hd. symmetry. apply take_drop_run.
Qed.

(** Every key at the start of [s] is found, extended by the digits that
    follow it. *)
Lemma key_scan_complete k rest :
  issue_key k -> key_scan (k ++ rest) = Some (k ++ take_run Re.digit rest).
Proof.
  intros (u & d & -> & Hu & Hlu & Hd & Hld).
  unfold key_scan.
  rewrite !append_assoc.
  change ("-" ++ d ++ rest) with (String "-" (d ++ rest)).
  rewrite take_run_exact, drop_run_exact by (assumption || reflexivity).
  apply Nat.leb_le in Hlu. rewrite Hlu.
  change (Ascii.eqb "-" "-") with true. cbv iota.
  rewrite take_run_append by assumption.
  rewrite length_append.
  replace (1 <=? String.length d + String.length (take_run Re.digit rest)) with true
    by (symmetry; apply Nat.leb_le; lia).
  reflexivity.
Qed.

Lemma issue_key_nonempty k : issue_key k -> k <> "".
Proof.
  intros (u & d & -> & _ & Hlu & _) E.
  apply (f_equal String.length) in E. rewrite length_append in E. simpl in E. lia.
Qed.

Lemma key_scan_longest s k : key_scan s = Some k <-> longest_key_prefix s k.
Proof.
  split.
  - intros H. destruct (key_scan_sound s k H) as (Hk & rest & -> & Hrest).
    split; [exact Hk |]. split; [now exists rest |].
    intros k' rest' Hk' E.
    pose proof (key_scan_complete k' rest' Hk') as H'.
    rewrite <- E, H in H'. injection H' as ->.
    rewrite length_append. lia.
  - intros (Hk & (rest & ->) & Hmax).
    pose proof (key_scan_complete k rest Hk) as H.
    destruct (key_scan_sound _ _ H) as (Hk2 & rest2 & E2 & _).
    specialize (Hmax _ _ Hk2 E2).
    rewrite length_append in Hmax.
    destruct (take_run Re.digit rest); [now rewrite append_nil_r in H |].
    simpl in Hmax. lia.
Qed.

Lemma key_scan_none s :
  key_scan s = None <-> ~ exists k rest, issue_key k /\ s = k ++ rest.
Proof.
  split.
  - intros H (k & rest & Hk & ->).
    now rewrite (key_scan_complete k rest Hk) in H.
  - intros H. destruct (key_scan s) as [k|] eqn:E; [| reflexivity].
    exfalso. apply H. destruct (key_scan_sound s k E) as (Hk & rest & -> & _).
    now exists k, rest.
Qed.

End MatcherFacts.

(** * Branch naming: what the three functions compute *)

Section BranchNaming.
Local Open Scope nat_scope.

Lemma build_branch_name_scan (pr : PullRequest) :
  build_branch_name pr
  = match key_scan (ref (head pr)) with
    | Some k => "pull-request-" ++ Py.str (number pr) ++ "-" ++ k
    | None => "pull-request-" ++ Py.str (number pr)
    end.
Proof.
  unfold build_branch_name, issue_key_at_start.
  rewrite search_bol.
  rewrite (key_core [] (fun g _ => g)) by reflexivity.
  destruct (key_scan (ref (head pr))) as [k|] eqn:E; [| reflexivity].
  destruct (key_scan_sound _ _ E) as (Hk & rest & Hs & _).
  unfold Re.group0; cbn [Re.m_start Re.m_end Re.m_string].
  rewrite Nat.sub_0_r, Nat.add_0_l, Hs, substring_prefix.
  apply issue_key_nonempty, String.eqb_neq in Hk. rewrite Hk.
  cbn [negb]. now rewrite append_assoc.
Qed.

Lemma search_from_key whole : forall s prev i,
  Re.search_from false issue_key_anywhere whole prev i s
  = match find_key i s with
    | Some (j, k) =>
        Some {| Re.m_string := whole; Re.m_start := j;
                Re.m_end := j + String.length k;
                Re.m_group1 := Some (j, j + String.length k) |}
    | None => None
    end.
Proof.
  assert (Hhere : forall s prev i,
    Re.match_items false issue_key_anywhere (0, None) prev i s
    = match key_scan s with
      | Some k => Some (i + String.length k,
                        (i, Some (i, i + String.length k)))
      | None => None
      end).
  { intros s prev i. unfold issue_key_anywhere.
    rewrite match_gopen.
    now rewrite (key_core [Re.GClose] (fun g e => (fst g, Some (fst g, e)))). }
  induction s as [|c s IH]; intros prev i.
  - cbn [Re.search_from find_key]. rewrite Hhere.
    now destruct (key_scan "").
  - cbn [Re.search_from find_key]. rewrite Hhere.
    destruct (key_scan (String c s)); [reflexivity | apply IH].
Qed.

Lemma find_key_sound : forall s i j k,
  find_key i s = Some (j, k) ->
  exists a b,
    s = a ++ k ++ b /\ j = i + String.length a /\ issue_key k
    /\ forall a' k' b', issue_key k' -> s = a' ++ k' ++ b' ->
         String.length a <= String.length a'
         /\ (String.length a' = String.length a ->
             String.length k' <= String.length k).
Proof.
  assert (Hhere : forall s i k, key_scan s = Some k ->
    exists a b,
      s = a ++ k ++ b /\ i = i + String.length a /\ issue_key k
      /\ forall a' k' b', issue_key k' -> s = a' ++ k' ++ b' ->
           String.length a <= String.length a'
           /\ (String.length a' = String.length a ->
               String.length k' <= String.length k)).
  { intros s i k E.
    apply key_scan_longest in E as (Hk & (b & Hb) & Hmax).
    exists "", b. split; [exact Hb |]. split; [simpl; lia |]. split; [exact Hk |].
    intros a' k' b' Hk' Hs. split; [simpl; lia |].
    destruct a'; [| discriminate]. intros _. now apply (Hmax k' b'). }
  induction s as [|c s IH]; intros i j k; cbn [find_key].
  - destruct (key_scan "") as [k0|] eqn:E; [| discriminate].
    intros [= <- <-]. now apply Hhere.
  - destruct (key_scan (String c s)) as [k0|] eqn:E.
    + intros [= <- <-]. now apply Hhere.
    + intros H. destruct (IH _ _ _ H) as (a & b & Hs & Hj & Hk & Hmin).
      exists (String c a), b.
      split; [simpl; now rewrite Hs |].
      split; [simpl; lia |].
      split; [exact Hk |].
      intros a' k' b' Hk' Hs'.
      destruct a' as [|c' a'].
      * exfalso. apply key_scan_none in E. apply E. now exists k', b'.
      * simpl in Hs'. injection Hs' as -> Hs'.
        destruct (Hmin a' k' b' Hk' Hs') as [Hle Hl].
        split; [simpl; lia |]. simpl. intros Heq. apply Hl. lia.
Qed.

Lemma find_key_none : forall s i,
  find_key i s = None ->
  forall a k b, issue_key k -> s <> a ++ k ++ b.
Proof.
  induction s as [|c s IH]; intros i; cbn [find_key].
  - destruct (key_scan "") eqn:E; [discriminate |]. intros _ a k b Hk Hs.
    apply key_scan_none in E. apply E.
    destruct a; [now exists k, b | discriminate].
  - destruct (key_scan (String c s)) eqn:E; [discriminate |]. intros H a k b Hk Hs.
    destruct a as [|c' a].
    + apply key_scan_none in E. apply E. now exists k, b.
    + simpl in Hs. injection Hs as -> Hs. now apply (IH _ H a k b).
Qed.

Lemma build_pull_request_title_find (branch_name : string) :
  build_pull_request_title branch_name
  = match find_key 0 branch_name with
    | Some (_, k) => k
    | None => branch_name
    end.
Proof.
  unfold build_pull_request_title, Re.search. rewrite search_from_key.
  destruct (find_key 0 branch_name) as [[j k]|] eqn:E; [| reflexivity].
  destruct (find_key_sound _ _ _ _ E) as (a & b & Hs & -> & Hk & _).
  unfold Re.group1; cbn [Re.m_group1 Re.m_string].
  replace (0 + String.length a + String.length k - (0 + String.length a))
    with (String.length k) by lia.
  assert (Hsub : substring (0 + String.length a) (String.length k) branch_name = k)
    by (rewrite Hs; apply substring_middle).
  rewrite Hsub.
  apply issue_key_nonempty, String.eqb_neq in Hk. now rewrite Hk.
Qed.

Lemma get_pull_request_ID_scan (branch_name : string) :
  get_pull_request_ID branch_name
  = if String.prefix "pull-request-" branch_name then
      let d := take_run Re.digit (Py.slice_from 13 branch_name) in
      if 1 <=? String.length d then Py.int d else Raises none_has_no_group
    else Raises none_has_no_group.
Proof.
  unfold get_pull_request_ID, pull_request_prefix.
  rewrite search_bol, match_lits.
  destruct (String.prefix "pull-request-" branch_name) eqn:Hp; [| reflexivity].
  cbn [Re.match_items]. rewrite rep_run by (left; discriminate).
  cbv zeta.
  change (String.length "pull-request-") with 13.
  destruct (1 <=? String.length (take_run Re.digit (Py.slice_from 13 branch_name)));
    [| reflexivity].
  unfold Re.group1; cbn [Re.m_group1 Re.m_string snd fst].
  apply prefix_split in Hp. change (String.length "pull-request-") with 13 in Hp.
  replace (0 + 13 + String.length (take_run Re.digit (Py.slice_from 13 branch_name))
           - (0 + 13))
    with (String.length (take_run Re.digit (Py.slice_from 13 branch_name))) by lia.
  f_equal.
  rewrite Hp at 2.
  rewrite <- (take_drop_run Re.digit (Py.slice_from 13 branch_name)) at 2.
  apply (substring_middle "pull-request-").
Qed.

End BranchNaming.

(** * Decimal numerals *)

Section Decimal.

Lemma of_uint_acc_horner u : forall acc,
  Npos (Pos.of_uint_acc u acc) = horner (Npos acc) u.
Proof.
  induction u; intros acc; cbn [Pos.of_uint_acc horner];
    [reflexivity | rewrite IHu; f_equal; lia ..].
Qed.

Lemma of_uint_horner u : Pos.of_uint u = horner 0 u.
Proof.
  induction u; cbn [Pos.of_uint horner];
    [reflexivity | exact IHu | apply of_uint_acc_horner ..].
Qed.

Lemma uint_of_string_value : forall d u,
  NilEmpty.uint_of_string d = Some u ->
  forall acc, Z.of_N (horner acc u) = decimal_value (Z.of_N acc) d.
Proof.
  induction d as [|c d IH]; intros u H acc.
  - injection H as <-. reflexivity.
  - cbn [NilEmpty.uint_of_string] in H.
    destruct (NilEmpty.uint_of_string d) as [u'|] eqn:E;
      [| now destruct c as [[] [] [] [] [] [] [] []]].
    apply uint_of_char_spec in H.
    cbn [decimal_value].
    repeat (destruct H as [[-> ->] | H]);
      [.. | destruct H as [-> ->]];
      cbn [horner]; rewrite (IH _ eq_refl); f_equal;
      unfold digit_value; cbn; lia.
Qed.

Lemma digit_uint_of_char c u :
  Re.digit c = true -> uint_of_char c (Some u) <> None.
Proof.
  destruct c as [[] [] [] [] [] [] [] []]; cbv; congruence.
Qed.

Lemma uint_of_digits d :
  Py.all_chars Re.digit d = true -> NilEmpty.uint_of_string d <> None.
Proof.
  induction d as [|c d IH]; cbn [Py.all_chars NilEmpty.uint_of_string];
    [discriminate |].
  intros H. apply andb_prop in H as [Hc Hd].
  destruct (NilEmpty.uint_of_string d) as [u|]; [| now elim IH].
  now apply digit_uint_of_char.
Qed.

(** [int] of a string of digits is its decimal value. *)
Lemma int_digits d :
  Py.all_chars Re.digit d = true -> d <> "" ->
  Py.int d = Returns (decimal_value 0 d).
Proof.
  intros Hd Hne. pose proof (uint_of_digits d Hd) as Hu.
  destruct d as [|c d]; [congruence |].
  unfold Py.int, NilZero.int_of_string, NilZero.uint_of_string.
  assert (Ascii.eqb c "-" = false) as ->.
  { cbn [Py.all_chars] in Hd. apply andb_prop in Hd as [Hc _].
    destruct (Ascii.eqb_spec c "-") as [->|]; [discriminate Hc | reflexivity]. }
  destruct (NilEmpty.uint_of_string (String c d)) as [u|] eqn:E; [| congruence].
  cbn [option_map Z.of_int]. f_equal.
  unfold Z.of_uint. rewrite of_uint_horner.
  apply (uint_of_string_value _ _ E 0%N).
Qed.

Lemma int_never_attribute_error d msg : Py.int d <> Raises (AttributeError msg).
Proof. unfold Py.int. now destruct (NilZero.int_of_string d). Qed.

Lemma string_of_uint_digits u :
  Py.all_chars Re.digit (NilEmpty.string_of_uint u) = true.
Proof. induction u; cbn [NilEmpty.string_of_uint Py.all_chars]; auto. Qed.

(** [str] of a number that is not negative is a non-empty string of
    digits. *)
Lemma str_digits n :
  0 <= n ->
  Py.all_chars Re.digit (Py.str n) = true /\ (1 <= String.length (Py.str n))%nat.
Proof.
  intros Hn. unfold Py.str. destruct n as [|p|p]; [now split | | lia].
  cbn [Z.to_int NilZero.string_of_int].
  pose proof (DecimalPos.Unsigned.to_uint_nonnil p) as Hp.
  unfold NilZero.string_of_uint.
  destruct (Pos.to_uint p) as [|u|u|u|u|u|u|u|u|u|u] eqn:E; [congruence | ..];
    (split; [apply string_of_uint_digits | cbn; lia]).
Qed.

Lemma int_str n : Py.int (Py.str n) = Returns n.
Proof.
  unfold Py.int, Py.str. rewrite NilZero.isi.
  - now rewrite DecimalZ.of_to.
  - destruct n; cbn; try discriminate.
    intros [= H]. now apply (DecimalPos.Unsigned.to_uint_nonnil p).
  - destruct n; cbn; try discriminate.
    intros [= H]. now apply (DecimalPos.Unsigned.to_uint_nonnil p).
Qed.

End Decimal.

(** * Branch naming: the properties *)

Example build_branch_name_42 :
  build_branch_name
    {| number := 42; title := ""; body := ""; user := {| name := ""; login := "" |};
       head := {| ref := "ABC-123-foo"; repository := {| url := ""; private := false |} |};
       html_url := "" |} = "pull-request-42-ABC-123".
Proof. vm_compute. reflexivity. Qed.

(** The key must be at the very start of the head ref. *)
Example build_branch_name_feature :
  build_branch_name (example_pull_request 42 "feature/ABC-123-foo")
  = "pull-request-42".
Proof. vm_compute. reflexivity. Qed.

Example get_pull_request_ID_42 :
  get_pull_request_ID "pull-request-42-ABC-123" = Returns 42.
Proof. vm_compute. reflexivity. Qed.

Example build_pull_request_title_key :
  build_pull_request_title "feature/XLPS-1234-foo" = "XLPS-1234".
Proof. vm_compute. reflexivity. Qed.

(** On a branch name that begins with [pull-request-], digits, and then
    something that is not a digit, the result is the value of the
    digits. *)
Lemma get_pull_request_ID_digits (d rest : string) :
  Py.all_chars Re.digit d = true -> d <> "" -> begins Re.digit rest = false ->
  get_pull_request_ID ("pull-request-" ++ d ++ rest) = Returns (decimal_value 0 d).
Proof.
  intros Hd Hne Hrest. rewrite get_pull_request_ID_scan.
  rewrite prefix_append.
  rewrite (slice_from_append "pull-request-").
  cbv zeta. rewrite take_run_exact by assumption.
  destruct d as [|c d]; [congruence |].
  cbn [String.length Nat.leb]. now apply int_digits.
Qed.

(** C1, as the code has it: on a name that begins with [pull-request-]
    and digits, [get_pull_request_ID] returns the value of the digits;
    it raises exactly on the other names, and what it raises there is the
    [AttributeError] of calling [group] on [None]; it never raises the
    "Invalid branch" warning. *)
Theorem get_pull_request_ID_unguarded (branch_name : string) :
  (get_pull_request_ID branch_name = Raises none_has_no_group
   <-> ~ exists d rest,
         branch_name = "pull-request-" ++ d ++ rest
         /\ d <> "" /\ Py.all_chars Re.digit d = true)
  /\ get_pull_request_ID branch_name <> Raises InvalidBranchError
  /\ (forall d rest,
        branch_name = "pull-request-" ++ d ++ rest ->
        Py.all_chars Re.digit d = true -> d <> "" -> begins Re.digit rest = false ->
        get_pull_request_ID branch_name = Returns (decimal_value 0 d)).
Proof.
  split; [| split];
    [| | intros d rest ->; apply get_pull_request_ID_digits].
  - rewrite get_pull_request_ID_scan.
    destruct (String.prefix "pull-request-" branch_name) eqn:Hp.
    + apply prefix_split in Hp.
      change (String.length "pull-request-") with 13%nat in Hp.
      cbv zeta.
      set (x := Py.slice_from 13 branch_name) in *.
      destruct (take_run Re.digit x) as [|c d] eqn:Hrun; cbn [String.length Nat.leb].
      * split; [| reflexivity].
        intros _ (d & rest & Hb & Hne & Hd).
        rewrite Hb in Hp. apply append_inv_head in Hp.
        rewrite <- Hp, take_run_append in Hrun by assumption.
        destruct d; [congruence | discriminate].
      * split.
        -- intros H. now apply int_never_attribute_error in H.
        -- intros H. exfalso. apply H.
           exists (String c d), (drop_run Re.digit x).
           split; [| split; [discriminate |]].
           ++ rewrite <- Hrun, take_drop_run. exact Hp.
           ++ rewrite <- Hrun. apply all_chars_take_run.
    + split; [| reflexivity].
      intros _ (d & rest & Hb & _). now apply prefix_false_append in Hb.
  - rewrite get_pull_request_ID_scan.
    destruct (String.prefix "pull-request-" branch_name); [| discriminate].
    cbv zeta.
    destruct (1 <=? String.length
                (take_run Re.digit (Py.slice_from 13 branch_name)))%nat;
      [| discriminate].
    unfold Py.int. now destruct (NilZero.int_of_string _).
Qed.

Lemma get_pull_request_ID_unguarded_witness :
  get_pull_request_ID "pull-request-abc" = Raises none_has_no_group
  /\ get_pull_request_ID "pull-request-42-ABC-123" = Returns 42.
Proof.
  split.
  - apply (proj1 (get_pull_request_ID_unguarded "pull-request-abc")).
    intros (d & rest & Hb & Hne & Hd).
    injection Hb as Hb. destruct d as [|c d]; [congruence |].
    injection Hb as <- _. discriminate Hd.
  - apply (proj2 (proj2 (get_pull_request_ID_unguarded "pull-request-42-ABC-123"))
             "42" "-ABC-123"); (reflexivity || discriminate).
Defined.

(** C1 at a branch that passes the prefix test of
    [get_current_branch_name]. *)
Example get_pull_request_ID_abc :
  get_pull_request_ID "pull-request-abc" = Raises none_has_no_group.
Proof. reflexivity. Qed.

Example get_pull_request_ID_master :
  get_pull_request_ID "master" = Raises none_has_no_group.
Proof. reflexivity. Qed.

(** C3: the pull request number is read back from the branch name built
    for it, for every pull request whose number is not negative. *)
Theorem get_pull_request_ID_build_branch_name (pr : PullRequest) :
  0 <= number pr ->
  get_pull_request_ID (build_branch_name pr) = Returns (number pr).
Proof.
  intros Hn. destruct (str_digits _ Hn) as [Hd Hl].
  rewrite build_branch_name_scan, get_pull_request_ID_scan.
  assert (H : forall tail, begins Re.digit tail = false ->
    (if String.prefix "pull-request-" ("pull-request-" ++ Py.str (number pr) ++ tail)
     then
       let d := take_run Re.digit
           (Py.slice_from 13 ("pull-request-" ++ Py.str (number pr) ++ tail)) in
       if (1 <=? String.length d)%nat then Py.int d else Raises none_has_no_group
     else Raises none_has_no_group) = Returns (number pr)).
  { intros tail Htail. rewrite prefix_append.
    rewrite (slice_from_append "pull-request-").
    cbv zeta. rewrite take_run_exact by assumption.
    apply Nat.leb_le in Hl. rewrite Hl. apply int_str. }
  destruct (key_scan (ref (head pr))) as [k|].
  - now apply (H ("-" ++ k)).
  - rewrite <- (append_nil_r (Py.str (number pr))). now apply (H "").
Qed.

Lemma get_pull_request_ID_build_branch_name_witness :
  0 <= 42
  /\ get_pull_request_ID (build_branch_name (example_pull_request 42 "ABC-123-foo"))
     = Returns 42.
Proof.
  split; [lia |].
  apply (get_pull_request_ID_build_branch_name (example_pull_request 42 "ABC-123-foo")).
  simpl. lia.
Defined.

(** A negative number does not come back: the minus sign is not a digit. *)
Example get_pull_request_ID_negative :
  get_pull_request_ID (build_branch_name (example_pull_request (-1) "master"))
  = Raises none_has_no_group.
Proof. reflexivity. Qed.

(** C4: when the head ref begins with an issue key, the branch name is
    [pull-request-<number>-<key>] for the longest such key (the match of
    the greedy pattern); otherwise it is exactly [pull-request-<number>].
    [build_branch_name] is a total function of the pull request. *)
Theorem build_branch_name_issue_key (pr : PullRequest) :
  (forall k, longest_key_prefix (ref (head pr)) k ->
     build_branch_name pr = "pull-request-" ++ Py.str (number pr) ++ "-" ++ k)
  /\ ((exists k rest, issue_key k /\ ref (head pr) = k ++ rest) ->
      exists k, longest_key_prefix (ref (head pr)) k)
  /\ ((~ exists k rest, issue_key k /\ ref (head pr) = k ++ rest) ->
      build_branch_name pr = "pull-request-" ++ Py.str (number pr)).
Proof.
  rewrite build_branch_name_scan. split; [| split].
  - intros k Hk. apply key_scan_longest in Hk. now rewrite Hk.
  - intros H. destruct (key_scan (ref (head pr))) as [k|] eqn:E.
    + exists k. now apply key_scan_longest.
    + now apply key_scan_none in E.
  - intros H. apply key_scan_none in H. now rewrite H.
Qed.

Lemma build_branch_name_issue_key_witness :
  longest_key_prefix "ABC-123-foo" "ABC-123"
  /\ build_branch_name (example_pull_request 42 "ABC-123-foo")
     = "pull-request-42-ABC-123"
  /\ build_branch_name (example_pull_request 7 "misc-fix") = "pull-request-7".
Proof.
  assert (Hk : longest_key_prefix "ABC-123-foo" "ABC-123")
    by (apply key_scan_longest; reflexivity).
  split; [exact Hk |]. split.
  - exact (proj1 (build_branch_name_issue_key (example_pull_request 42 "ABC-123-foo"))
             "ABC-123" Hk).
  - apply (proj2 (proj2 (build_branch_name_issue_key (example_pull_request 7 "misc-fix")))).
    apply key_scan_none. reflexivity.
Defined.

(** C8: when an issue key occurs in the branch name, the default title
    is the key at the leftmost offset where one occurs, and the longest
    key at that offset; when none occurs, it is the branch name. *)
Theorem build_pull_request_title_first_key (branch_name : string) :
  ((exists i k, issue_key k /\ occurs_at i k branch_name) ->
   exists i k,
     build_pull_request_title branch_name = k
     /\ issue_key k /\ occurs_at i k branch_name
     /\ forall i' k', issue_key k' -> occurs_at i' k' branch_name ->
          (i <= i')%nat
          /\ (i' = i -> (String.length k' <= String.length k)%nat))
  /\ ((~ exists i k, issue_key k /\ occurs_at i k branch_name) ->
      build_pull_request_title branch_name = branch_name).
Proof.
  rewrite build_pull_request_title_find.
  destruct (find_key 0 branch_name) as [[j k]|] eqn:E.
  - destruct (find_key_sound _ _ _ _ E) as (a & b & Hs & Hj & Hk & Hmin).
    split.
    + intros _. exists (String.length a), k.
      split; [reflexivity |]. split; [exact Hk |].
      split; [now exists a, b |].
      intros i' k' Hk' (a' & b' & Hs' & <-).
      destruct (Hmin a' k' b' Hk' Hs') as [Hle Hl]. split; [exact Hle | exact Hl].
    + intros H. exfalso. apply H. exists (String.length a), k.
      split; [exact Hk | now exists a, b].
  - split.
    + intros (i & k & Hk & a & b & Hs & _).
      now apply (find_key_none _ _ E a k b) in Hk.
    + reflexivity.
Qed.

Lemma build_pull_request_title_first_key_witness :
  (exists i k,
     build_pull_request_title "feature/LPS-1234-ABC-5" = k
     /\ issue_key k /\ occurs_at i k "feature/LPS-1234-ABC-5"
     /\ forall i' k', issue_key k' -> occurs_at i' k' "feature/LPS-1234-ABC-5" ->
          (i <= i')%nat
          /\ (i' = i -> (String.length k' <= String.length k)%nat))
  /\ build_pull_request_title "feature/LPS-1234-ABC-5" = "LPS-1234"
  /\ build_pull_request_title "pull-request-7" = "pull-request-7".
Proof.
  split; [| split].
  - apply (proj1 (build_pull_request_title_first_key "feature/LPS-1234-ABC-5")).
    exists 8%nat, "LPS-1234". split.
    + exists "LPS", "1234". repeat split; simpl; lia.
    + exists "feature/", "-ABC-5". split; reflexivity.
  - reflexivity.
  - apply (proj2 (build_pull_request_title_first_key "pull-request-7")).
    intros (i & k & Hk & a & b & Hs & _).
    now apply (find_key_none "pull-request-7" 0%nat eq_refl a k b) in Hk.
Defined.

(** * The update state machine and the commands: the properties *)

#[local] Arguments Z.eqb : simpl never.
#[local] Arguments String.append : simpl never.
#[local] Arguments Py.path_join : simpl never.
#[local] Arguments Py.strip : simpl never.
#[local] Arguments Py.dirname : simpl never.
#[local] Arguments Py.slice_to : simpl never.

(** Unfold the sequencing of the monad and compute. *)
Ltac run := unfold mbind, M_bind, mret, M_ret; cbn.

Lemma bind_unfold {A B : Type} (m : M A) (f : A -> M B) (w : World) :
  (m ≫= f) w
  = match m w with
    | (Returns a, w') => f a w'
    | (Raises e, w') => (Raises e, w')
    end.
Proof. reflexivity. Qed.

Lemma in_work_dir_world env w :
  snd (in_work_dir env w) = record (Popen "git rev-parse --show-toplevel") w.
Proof. reflexivity. Qed.

Lemma in_work_dir_returns env w : exists b, fst (in_work_dir env w) = Returns b.
Proof. eexists. reflexivity. Qed.

(** C7: from inside the work directory, [update_branch] raises its
    "Cannot perform an update" warning at once: all it has done is ask
    git for the top-level path; nothing was checked out, reset, merged
    or rebased, and no directory was entered. *)
Theorem update_branch_in_work_dir env options (branch_name : string) (w : World) :
  fst (in_work_dir env w) = Returns true ->
  update_branch env options branch_name w
  = (Raises InWorkDirectoryError,
     {| cwd := cwd w; files := files w;
        trace := trace w ++ [Popen "git rev-parse --show-toplevel"] |}).
Proof.
  intros H. unfold update_branch. rewrite bind_unfold.
  destruct (in_work_dir env w) as [o w'] eqn:E.
  pose proof (in_work_dir_world env w) as Hw. rewrite E in Hw.
  cbn [fst snd] in *. subst o w'. reflexivity.
Qed.

Lemma update_branch_in_work_dir_witness :
  let env := example_env (fun _ => 0) (on_branch "pull-request-42")
               (Some "/home/dev/project/.git/config") in
  fst (in_work_dir env (fresh "/home/dev/work")) = Returns true
  /\ update_branch env default_options "pull-request-42" (fresh "/home/dev/work")
     = (Raises InWorkDirectoryError,
        {| cwd := "/home/dev/work"; files := ∅;
           trace := [Popen "git rev-parse --show-toplevel"] |}).
Proof.
  split; [reflexivity |].
  apply (update_branch_in_work_dir
           (example_env (fun _ => 0) (on_branch "pull-request-42")
              (Some "/home/dev/project/.git/config"))).
  reflexivity.
Defined.

(** C6: when the commit (update method [merge]) or the continued rebase
    (update method [rebase]) reports failure, [continue_update] raises
    its "Updating from master failed" warning; the attempt itself is the
    only thing that happened: the branch name was not asked for again and
    no step of [complete_update] ran.  The same holds for the command. *)
Theorem continue_update_unresolved env options (method cmd : string) (w : World) :
  (method = "merge" /\ cmd = "git commit")
  \/ (method = "rebase" /\ cmd = "git rebase --continue") ->
  options !! "update-method" = Some (VStr method) ->
  system_status env (trace w) cmd <> 0 ->
  continue_update env options w
  = (Raises UnresolvedConflictError,
     {| cwd := cwd w; files := files w; trace := trace w ++ [System cmd] |})
  /\ command_continue_update env options w
     = (Raises UnresolvedConflictError,
        {| cwd := cwd w; files := files w; trace := trace w ++ [System cmd] |}).
Proof.
  intros Hm Hopt Hret.
  assert (H : continue_update env options w
    = (Raises UnresolvedConflictError,
       {| cwd := cwd w; files := files w; trace := trace w ++ [System cmd] |})).
  { unfold continue_update, option_. rewrite Hopt.
    apply Z.eqb_neq in Hret.
    destruct Hm as [[-> ->] | [-> ->]]; run; now rewrite Hret. }
  split; [exact H |].
  unfold command_continue_update. now rewrite bind_unfold, H.
Qed.

Lemma continue_update_unresolved_witness :
  let env := example_env (failing "git rebase --continue") (on_branch "pull-request-42")
               (Some "/home/dev/project/.git/config") in
  let options := <["update-method" := VStr "rebase"]> default_options in
  continue_update env options (fresh "/home/dev/work")
  = (Raises UnresolvedConflictError,
     {| cwd := "/home/dev/work"; files := ∅;
        trace := [System "git rebase --continue"] |})
  /\ command_continue_update env options (fresh "/home/dev/work")
     = (Raises UnresolvedConflictError,
        {| cwd := "/home/dev/work"; files := ∅;
           trace := [System "git rebase --continue"] |}).
Proof.
  apply (continue_update_unresolved
           (example_env (failing "git rebase --continue") (on_branch "pull-request-42")
              (Some "/home/dev/project/.git/config"))
           (<["update-method" := VStr "rebase"]> default_options)
           "rebase" "git rebase --continue" (fresh "/home/dev/work")).
  - right. split; reflexivity.
  - reflexivity.
  - vm_compute. discriminate.
Defined.

Lemma get_current_branch_name_guard env (w : World) :
  String.prefix "pull-request-"
    (Py.strip (popen_output env (trace w) "git rev-parse --abbrev-ref HEAD")) = false ->
  get_current_branch_name env true w
  = (Raises InvalidBranchError,
     {| cwd := cwd w; files := files w;
        trace := trace w ++ [Popen "git rev-parse --abbrev-ref HEAD"] |}).
Proof.
  intros H. unfold get_current_branch_name, mbind, M_bind, os_popen_read.
  cbv beta iota zeta.
  change 13%nat with (String.length "pull-request-").
  rewrite slice_to_prefix, H. reflexivity.
Qed.

Lemma get_current_branch_name_any env (w : World) :
  get_current_branch_name env false w
  = (Returns (Py.strip (popen_output env (trace w) "git rev-parse --abbrev-ref HEAD")),
     {| cwd := cwd w; files := files w;
        trace := trace w ++ [Popen "git rev-parse --abbrev-ref HEAD"] |}).
Proof. reflexivity. Qed.

(** C5: on a branch whose name lacks the prefix [pull-request-], and so
    on [master], both [command_merge] and [command_close] raise the
    "Invalid branch" warning; asking git for the branch name is all that
    has happened: nothing was checked out, merged or deleted, and no
    request was sent. *)
Theorem merge_close_invalid_branch env options (repo_name : string)
    (comment : value) (w : World) :
  let branch_name :=
    Py.strip (popen_output env (trace w) "git rev-parse --abbrev-ref HEAD") in
  branch_name = "master" \/ String.prefix "pull-request-" branch_name = false ->
  command_merge env options repo_name comment w
  = (Raises InvalidBranchError,
     {| cwd := cwd w; files := files w;
        trace := trace w ++ [Popen "git rev-parse --abbrev-ref HEAD"] |})
  /\ command_close env options repo_name comment w
     = (Raises InvalidBranchError,
        {| cwd := cwd w; files := files w;
           trace := trace w ++ [Popen "git rev-parse --abbrev-ref HEAD"] |}).
Proof.
  intros branch_name H.
  assert (Hp : String.prefix "pull-request-" branch_name = false)
    by (destruct H as [-> | H]; [reflexivity | exact H]).
  unfold command_merge, command_close.
  rewrite !bind_unfold, (get_current_branch_name_guard env w Hp).
  split; reflexivity.
Qed.

Lemma merge_close_invalid_branch_witness :
  let env := example_env (fun _ => 0) (on_branch "master") None in
  command_merge env default_options "owner/project" VNone (fresh "/home/dev/project")
  = (Raises InvalidBranchError,
     {| cwd := "/home/dev/project"; files := ∅;
        trace := [Popen "git rev-parse --abbrev-ref HEAD"] |})
  /\ command_close env default_options "owner/project" VNone (fresh "/home/dev/project")
     = (Raises InvalidBranchError,
        {| cwd := "/home/dev/project"; files := ∅;
           trace := [Popen "git rev-parse --abbrev-ref HEAD"] |}).
Proof.
  apply (merge_close_invalid_branch
           (example_env (fun _ => 0) (on_branch "master") None)
           default_options "owner/project" VNone (fresh "/home/dev/project")).
  left. reflexivity.
Defined.

(** ** Starting an update *)

(** Bring a trace to the form [t ++ [e1; ...; en]]. *)
Ltac norm_trace := rewrite <- ?app_assoc; cbn [app].

Lemma update_branch_checked_out env options branch_name w w1 :
  checked_out env options branch_name w w1 ->
  update_branch env options branch_name w
  = update_branch_rest env options branch_name w1.
Proof.
  intros H. unfold update_branch, update_branch_rest. rewrite bind_unfold.
  destruct (in_work_dir env w) as [o w0] eqn:E.
  pose proof (in_work_dir_world env w) as Hw. rewrite E in Hw. cbn [snd] in Hw.
  destruct H as [wd Hin Hwd Ht Hco | d Hin Hwd Hd Hcd Hrs Hco];
    rewrite E in Hin; cbn [fst] in Hin; subst o w0;
    unfold option_; rewrite Hwd.
  - run. rewrite Ht. cbn. rewrite Hco.
    change (negb (0 =? 0)) with false. cbn.
    unfold record. cbn. norm_trace. reflexivity.
  - apply String.eqb_neq in Hd. unfold reset_and_clean in *.
    run. rewrite Hd. cbn. rewrite Hcd. cbn.
    norm_trace. rewrite Hrs.
    change (negb (0 =? 0)) with false. cbn.
    unfold record. cbn. norm_trace. rewrite Hco.
    change (negb (0 =? 0)) with false. cbn.
    norm_trace. reflexivity.
Qed.

(** Case analysis on whatever the next branch of the script depends on. *)
Ltac branch :=
  match goal with
  | |- context [match ?c with _ => _ end] =>
      lazymatch c with
      | context [match _ with _ => _ end] => fail
      | _ => destruct c eqn:?
      end
  end.

Ltac branches := repeat (branch; cbn).

Ltac unfold_ops :=
  unfold display_status, in_work_dir, get_original_dir_path, get_git_base_path,
    get_current_branch_name, option_, chdir, write_file,
    os_chdir, os_readlink, os_path_islink, os_system, os_popen_read,
    raise, lift, record.

Lemma complete_update_not_unbound env branch_name w var :
  fst (complete_update env branch_name w) <> Raises (UnboundLocalError var).
Proof.
  unfold complete_update. unfold_ops. run. branches; discriminate.
Qed.

#[local] Arguments complete_update : simpl never.

Lemma update_branch_not_unbound env options branch_name w var :
  fst (update_branch env options branch_name w) <> Raises (UnboundLocalError var).
Proof.
  unfold update_branch. unfold_ops. run.
  branches; try discriminate; apply complete_update_not_unbound.
Qed.

(** C10, as the code has it: with an update method that is neither
    [merge] nor [rebase], [continue_update] reads its unbound [ret] and
    raises [UnboundLocalError] before doing anything; [update_branch]
    does not: its [ret] holds the zero status of the checkout, so after a
    successful checkout it runs neither a merge nor a rebase and goes
    straight to [complete_update], and it never raises
    [UnboundLocalError]. *)
Theorem other_update_method env options (method : value) (branch_name : string)
    (w : World) :
  options !! "update-method" = Some method ->
  value_eqb_str method "merge" = false ->
  value_eqb_str method "rebase" = false ->
  continue_update env options w = (Raises (UnboundLocalError "ret"), w)
  /\ (forall w1, checked_out env options branch_name w w1 ->
        update_branch env options branch_name w
        = complete_update env branch_name w1)
  /\ (forall var,
        fst (update_branch env options branch_name w)
        <> Raises (UnboundLocalError var)).
Proof.
  intros Hopt Hm Hr. split; [| split].
  - unfold continue_update, option_. rewrite Hopt. run. now rewrite Hm, Hr.
  - intros w1 H. rewrite (update_branch_checked_out _ _ _ _ _ H).
    unfold update_branch_rest, option_. rewrite Hopt. run. now rewrite Hm, Hr.
  - intros var. apply update_branch_not_unbound.
Qed.

Lemma other_update_method_witness :
  let env := example_env (fun _ => 0) (on_branch "pull-request-42") None in
  let w1 := {| cwd := "/home/dev/project"; files := ∅;
               trace := [Popen "git rev-parse --show-toplevel";
                         System "git checkout pull-request-42"] |} in
  continue_update env squash_options (fresh "/home/dev/project")
  = (Raises (UnboundLocalError "ret"), fresh "/home/dev/project")
  /\ update_branch env squash_options "pull-request-42" (fresh "/home/dev/project")
     = complete_update env "pull-request-42" w1.
Proof.
  intros env w1.
  destruct (other_update_method env squash_options (VStr "squash") "pull-request-42"
              (fresh "/home/dev/project") eq_refl eq_refl eq_refl) as (H1 & H2 & _).
  split; [exact H1 |].
  apply H2.
  apply (checked_out_primary env squash_options "pull-request-42"
           (fresh "/home/dev/project") VNone); reflexivity.
Defined.

(** C10 as stated fails for [update_branch]: with the update method
    [squash], and the checkout succeeding, it returns normally, having
    run no merge and no rebase. *)
Lemma update_branch_squash_returns :
  let env := example_env (fun _ => 0) (on_branch "pull-request-42") None in
  squash_options !! "update-method" = Some (VStr "squash")
  /\ update_branch env squash_options "pull-request-42" (fresh "/home/dev/project")
     = (Returns tt,
        {| cwd := "/home/dev/project"; files := ∅;
           trace := [Popen "git rev-parse --show-toplevel";
                     System "git checkout pull-request-42";
                     Popen "git rev-parse --show-toplevel"] |})
  /\ fst (update_branch env squash_options "pull-request-42"
            (fresh "/home/dev/project"))
     <> Raises (UnboundLocalError "ret").
Proof.
  split; [reflexivity |]. split; [reflexivity | discriminate].
Qed.

(** ** The breadcrumb file *)

Lemma chdir_overwrites (dir : string) (w : World) :
  chdir (VStr dir) w
  = (Returns tt,
     {| cwd := cwd w; files := <[breadcrumb := dir]> (files w);
        trace := trace w ++ [WriteFile breadcrumb dir] |}).
Proof. reflexivity. Qed.

Ltac solve_recorded :=
  eexists; split; [norm_trace; reflexivity |];
  split; [cbn; rewrite ?String.eqb_refl; reflexivity |];
  split;
    [ intros d Hin; cbn in Hin;
      repeat (destruct Hin as [Hin | Hin]; try discriminate Hin);
      try contradiction; injection Hin as <-; apply lookup_insert_eq
    | intros p x Hin; cbn in Hin;
      repeat (destruct Hin as [Hin | Hin]; try discriminate Hin);
      try contradiction; now injection Hin as <- ].

Lemma complete_update_recorded env branch_name w :
  exists t,
    trace (snd (complete_update env branch_name w)) = (trace w ++ t)%list
    /\ switches_recorded t = true
    /\ (forall d, In (Chdir d) t ->
          files (snd (complete_update env branch_name w)) !! breadcrumb = Some d)
    /\ (forall p x, In (WriteFile p x) t -> p = breadcrumb).
Proof.
  unfold complete_update. unfold_ops. run. branches; solve_recorded.
Qed.

Lemma update_branch_conflict env options branch_name w w1 (method cmd dir : string) :
  checked_out env options branch_name w w1 ->
  (method = "merge" /\ cmd = "git merge master")
  \/ (method = "rebase" /\ cmd = "git rebase master") ->
  options !! "update-method" = Some (VStr method) ->
  system_status env (trace w1) cmd <> 0 ->
  options !! "work-dir" = Some (VStr dir) ->
  dir <> "" ->
  update_branch env options branch_name w
  = (Raises (ConflictError branch_name),
     {| cwd := cwd w1; files := <[breadcrumb := dir]> (files w1);
        trace := trace w1 ++ [System cmd; WriteFile breadcrumb dir] |}).
Proof.
  intros Hco Hm Hopt Hret Hwd Hd.
  rewrite (update_branch_checked_out _ _ _ _ _ Hco).
  unfold update_branch_rest, option_. rewrite Hopt, Hwd.
  apply Z.eqb_neq in Hret. apply String.eqb_neq in Hd.
  destruct Hm as [[-> ->] | [-> ->]]; unfold_ops; run;
    rewrite Hret; cbn; rewrite Hd; cbn; norm_trace; reflexivity.
Qed.

(** C2, as the code has it: [chdir] replaces the content of the one
    breadcrumb file by the directory it is given; [complete_update]
    writes it right after every change of directory it makes (the switch
    back to the primary directory), so the file then holds that
    directory, and it writes no other file; and when the merge or rebase
    fails while a work directory is configured, [update_branch] leaves
    the work directory in the file.  The switch into the work directory
    at the start of an update is not among these. *)
Theorem breadcrumb_written env options (branch_name : string) (w : World) :
  (forall dir w0,
     chdir (VStr dir) w0
     = (Returns tt,
        {| cwd := cwd w0; files := <[breadcrumb := dir]> (files w0);
           trace := trace w0 ++ [WriteFile breadcrumb dir] |}))
  /\ (exists t,
        trace (snd (complete_update env branch_name w)) = (trace w ++ t)%list
        /\ switches_recorded t = true
        /\ (forall d, In (Chdir d) t ->
              files (snd (complete_update env branch_name w)) !! breadcrumb = Some d)
        /\ (forall p x, In (WriteFile p x) t -> p = breadcrumb))
  /\ (forall w1 (method cmd dir : string),
        checked_out env options branch_name w w1 ->
        (method = "merge" /\ cmd = "git merge master")
        \/ (method = "rebase" /\ cmd = "git rebase master") ->
        options !! "update-method" = Some (VStr method) ->
        system_status env (trace w1) cmd <> 0 ->
        options !! "work-dir" = Some (VStr dir) ->
        dir <> "" ->
        update_branch env options branch_name w
        = (Raises (ConflictError branch_name),
           {| cwd := cwd w1; files := <[breadcrumb := dir]> (files w1);
              trace := trace w1 ++ [System cmd; WriteFile breadcrumb dir] |})).
Proof.
  split; [| split].
  - intros dir w0. apply chdir_overwrites.
  - apply complete_update_recorded.
  - intros w1 method cmd dir. apply update_branch_conflict.
Qed.

Lemma breadcrumb_written_witness :
  let env := work_dir_env (failing "git merge master") (on_branch "pull-request-42") in
  update_branch env work_dir_options "pull-request-42" (fresh "/home/dev/project")
  = (Raises (ConflictError "pull-request-42"),
     {| cwd := "/home/dev/work";
        files := <[breadcrumb := "/home/dev/work"]> ∅;
        trace := [Popen "git rev-parse --show-toplevel"; Chdir "/home/dev/work";
                  System reset_and_clean; System "git checkout pull-request-42";
                  System "git merge master";
                  WriteFile breadcrumb "/home/dev/work"] |}).
Proof.
  intros env.
  apply (proj2 (proj2 (breadcrumb_written env work_dir_options "pull-request-42"
                         (fresh "/home/dev/project")))
           {| cwd := "/home/dev/work"; files := ∅;
              trace := [Popen "git rev-parse --show-toplevel"; Chdir "/home/dev/work";
                        System reset_and_clean;
                        System "git checkout pull-request-42"] |}
           "merge" "git merge master" "/home/dev/work").
  - apply (checked_out_work_dir env work_dir_options "pull-request-42"
             (fresh "/home/dev/project") "/home/dev/work");
      (reflexivity || discriminate).
  - left. split; reflexivity.
  - reflexivity.
  - vm_compute. discriminate.
  - reflexivity.
  - discriminate.
Defined.

(** C2 as stated fails at the switch into the work directory: in a run
    of [update_branch] without conflicts the first change of directory is
    followed by the reset, not by a write of the breadcrumb; and when
    that reset fails, the process ends in the work directory with the
    breadcrumb file never written. *)
Lemma update_branch_switch_not_recorded :
  let clean := work_dir_env (fun _ => 0) (on_branch "pull-request-42") in
  let dirty := work_dir_env (failing reset_and_clean) (on_branch "pull-request-42") in
  let start := fresh "/home/dev/project" in
  trace (snd (update_branch clean work_dir_options "pull-request-42" start))
  = [Popen "git rev-parse --show-toplevel"; Chdir "/home/dev/work";
     System reset_and_clean; System "git checkout pull-request-42";
     System "git merge master"; Popen "git rev-parse --show-toplevel";
     System "git checkout master"; Popen "git rev-parse --show-toplevel";
     Chdir "/home/dev/project"; WriteFile breadcrumb "/home/dev/project";
     Popen "git rev-parse --abbrev-ref HEAD"; System reset_and_clean]
  /\ switches_recorded
       (trace (snd (update_branch clean work_dir_options "pull-request-42" start)))
     = false
  /\ cwd (snd (update_branch dirty work_dir_options "pull-request-42" start))
     = "/home/dev/work"
  /\ files (snd (update_branch dirty work_dir_options "pull-request-42" start))
       !! breadcrumb = None.
Proof. vm_compute. repeat split. Qed.

(** ** Submitting *)

#[local] Arguments Re.search : simpl never.
#[local] Arguments build_pull_request_title : simpl never.
#[local] Arguments Py.replace : simpl never.

Lemma get_repo_name_for_remote_returns env (remote_name : string) (w : World) :
  exists r,
    get_repo_name_for_remote env remote_name w
    = (Returns r,
       {| cwd := cwd w; files := files w;
          trace := trace w ++ [Popen "git remote -v"] |}).
Proof.
  unfold get_repo_name_for_remote. unfold_ops. run.
  branches; eexists; reflexivity.
Qed.

#[local] Arguments get_repo_name_for_remote : simpl never.

Ltac not_no_reviewer H :=
  exfalso; unfold NoReviewerError in H; vm_compute in H; discriminate H.

Lemma command_submit_no_reviewer env options (repo_name username : string)
    (reviewer_name pull_body pull_title : option string) (w : World) :
  let w1 := {| cwd := cwd w; files := files w;
               trace := trace w ++ [Popen "git rev-parse --abbrev-ref HEAD"] |} in
  let run := command_submit env options repo_name username reviewer_name
               pull_body pull_title w in
  (fst run = Raises NoReviewerError
   <-> none_or_empty reviewer_name = true
       /\ unresolved (fst (get_repo_name_for_remote env "upstream" w1)))
  /\ (fst run = Raises NoReviewerError ->
      snd run
      = {| cwd := cwd w; files := files w;
           trace := trace w ++ [Popen "git rev-parse --abbrev-ref HEAD";
                                Popen "git remote -v"] |}).
Proof.
  intros w1 run. subst w1 run.
  unfold command_submit, github_json_request, open_URL, display_pull_request.
  unfold_ops. run.
  destruct (get_repo_name_for_remote_returns env "upstream"
              {| cwd := cwd w; files := files w;
                 trace := trace w ++ [Popen "git rev-parse --abbrev-ref HEAD"] |})
    as [r Hr].
  rewrite Hr. cbn.
  destruct (none_or_empty reviewer_name) eqn:Hn; cbn.
  - rewrite Hr. cbn. destruct r as [[|c s]|]; cbn.
    + split; [| intros _; norm_trace; reflexivity].
      split; [intros _; split; [reflexivity | now right] | reflexivity].
    + split.
      * split; [| intros [_ [H | H]]; discriminate H].
        branches; intros H; not_no_reviewer H.
      * branches; intros H; not_no_reviewer H.
    + split; [| intros _; norm_trace; reflexivity].
      split; [intros _; split; [reflexivity | now left] | reflexivity].
  - destruct reviewer_name as [[|c s]|]; try discriminate Hn; cbn.
    split.
    + split; [| intros [H _]; discriminate H].
      branches; intros H; not_no_reviewer H.
    + branches; intros H; not_no_reviewer H.
Qed.

#[local] Arguments command_submit : simpl never.

(** C9: [submit] raises its "Could not determine a repo" warning exactly
    when no reviewer was given with [-u], [git config github.reviewer] is
    empty, and the [upstream] remote yields no repository name; by then it
    has only read the configuration, the branch name and the remotes:
    nothing was pushed and no request was sent.  The same holds of
    [command_submit] for the reviewer it is passed. *)
Theorem submit_no_reviewer env options (repo_name username : string)
    (reviewer_name : option string) (args : list string) (w : World) :
  let w2 := {| cwd := cwd w; files := files w;
               trace := trace w ++ [Popen "git config github.reviewer";
                                    Popen "git rev-parse --abbrev-ref HEAD"] |} in
  let run := main_submit env options repo_name username reviewer_name args w in
  (fst run = Raises NoReviewerError
   <-> none_or_empty reviewer_name = true
       /\ Py.strip (popen_output env (trace w) "git config github.reviewer") = ""
       /\ unresolved (fst (get_repo_name_for_remote env "upstream" w2)))
  /\ (fst run = Raises NoReviewerError ->
      snd run
      = {| cwd := cwd w; files := files w;
           trace := trace w ++ [Popen "git config github.reviewer";
                                Popen "git rev-parse --abbrev-ref HEAD";
                                Popen "git remote -v"] |})
  /\ (forall pull_body pull_title,
        fst (command_submit env options repo_name username reviewer_name
               pull_body pull_title w) = Raises NoReviewerError
        <-> none_or_empty reviewer_name = true
            /\ unresolved
                 (fst (get_repo_name_for_remote env "upstream"
                         {| cwd := cwd w; files := files w;
                            trace := trace w
                                     ++ [Popen "git rev-parse --abbrev-ref HEAD"] |}))).
Proof.
  intros w2 run. subst w2 run.
  split; [| split];
    [| | intros pull_body pull_title; apply command_submit_no_reviewer].
  - unfold main_submit. destruct (none_or_empty reviewer_name) eqn:Hn.
    + unfold os_popen_read. run.
      match goal with
      | |- context [command_submit _ _ _ _ ?r ?b ?t ?W] =>
          pose proof (command_submit_no_reviewer env options repo_name username
                        r b t W) as [Hiff _]
      end.
      cbn in Hiff. rewrite <- app_assoc in Hiff. cbn [app] in Hiff.
      rewrite Hiff, String.eqb_eq. tauto.
    + run.
      pose proof (command_submit_no_reviewer env options repo_name username
                    reviewer_name (nth_error args 0) (nth_error args 1) w)
        as [Hiff _].
      cbn in Hiff. rewrite Hiff, Hn. split; [intros [H _] | intros [H _]];
        discriminate H.
  - unfold main_submit. destruct (none_or_empty reviewer_name) eqn:Hn.
    + unfold os_popen_read. run.
      match goal with
      | |- context [command_submit _ _ _ _ ?r ?b ?t ?W] =>
          pose proof (command_submit_no_reviewer env options repo_name username
                        r b t W) as [_ Hw]
      end.
      cbn in Hw. rewrite <- app_assoc in Hw. cbn [app] in Hw. exact Hw.
    + run.
      pose proof (command_submit_no_reviewer env options repo_name username
                    reviewer_name (nth_error args 0) (nth_error args 1) w)
        as [Hiff _].
      cbn in Hiff. intros H. apply Hiff in H as [H _]. congruence.
Qed.

Lemma submit_no_reviewer_witness :
  let env := example_env (fun _ => 0) no_remotes None in
  main_submit env default_options "adev/project" "adev" None ["Please review"]
    (fresh "/home/dev/project")
  = (Raises NoReviewerError,
     {| cwd := "/home/dev/project"; files := ∅;
        trace := [Popen "git config github.reviewer";
                  Popen "git rev-parse --abbrev-ref HEAD";
                  Popen "git remote -v"] |}).
Proof.
  intros env.
  destruct (submit_no_reviewer env default_options "adev/project" "adev" None
              ["Please review"] (fresh "/home/dev/project")) as (Hiff & Hw & _).
  assert (H : fst (main_submit env default_options "adev/project" "adev" None
                     ["Please review"] (fresh "/home/dev/project"))
              = Raises NoReviewerError).
  { apply Hiff. split; [reflexivity |]. split; [reflexivity |]. left. reflexivity. }
  specialize (Hw H).
  destruct (main_submit env default_options "adev/project" "adev" None
              ["Please review"] (fresh "/home/dev/project")) as [o w'].
  cbn [fst snd] in *. now subst.
Defined.

Example get_repo_name_for_remote_upstream :
  fst (get_repo_name_for_remote (example_env (fun _ => 0) with_upstream None)
         "upstream" (fresh "/home/dev/project"))
  = Returns (Some "owner/project").
Proof. vm_compute. reflexivity. Qed.

Example main_submit_upstream :
  main_submit (example_env (fun _ => 0) with_upstream None) default_options
    "adev/project" "adev" None [] (fresh "/home/dev/project")
  = (Raises (UserWarning
       ("Error communicating with github: "
        ++ "http://github.com/api/v2/json/pulls/owner/project/project"
        ++ String "010" "HTTP Error 404: Not Found")),
     {| cwd := "/home/dev/project"; files := ∅;
        trace := [Popen "git config github.reviewer";
                  Popen "git rev-parse --abbrev-ref HEAD";
                  Popen "git remote -v";
                  System "git push origin LPS-1234";
                  Request "http://github.com/api/v2/json/pulls/owner/project/project"
                    (Some [("pull[base]", "master");
                           ("pull[head]", "adev:LPS-1234");
                           ("pull[title]", "LPS-1234");
                           ("pull[body]", "")])] |}).
Proof. vm_compute. reflexivity. Qed.

(** * More on branch names and repository addresses *)

#[local] Arguments String.append !s1 s2 : simpl nomatch.

Section Replace.
Local Open Scope nat_scope.

Lemma replace_fuel_absent old new : forall fuel s,
  occurs old s = false -> Py.replace_fuel fuel old new s = s.
Proof.
  induction fuel as [|fuel IH]; intros s H; [reflexivity |].
  cbn [Py.replace_fuel].
  destruct s as [|c s]; cbn [occurs] in H; apply orb_false_elim in H as [Hp Hs];
    rewrite Hp; [reflexivity |].
  now rewrite IH.
Qed.

Lemma replace_absent old new s :
  old <> "" -> occurs old s = false -> Py.replace old new s = s.
Proof.
  intros Hne H. unfold Py.replace. destruct old; [congruence |].
  now apply replace_fuel_absent.
Qed.

Lemma replace_head old new rest :
  old <> "" -> occurs old rest = false ->
  Py.replace old new (old ++ rest) = new ++ rest.
Proof.
  intros Hne H. unfold Py.replace. destruct old as [|c old]; [congruence |].
  cbn [Py.replace_fuel].
  now rewrite prefix_append, slice_from_append, replace_fuel_absent.
Qed.

End Replace.

(** X1: the address of a github repository given as
    [https://github.com/<path>] becomes [git://github.com/<path>], and
    [git@github.com:<path>] for a private repository, as long as the path
    itself contains neither [https] nor (for a private one)
    [git://github.com/]; an address without [https] is left as it is for
    a public repository. *)
Theorem get_repo_url_github (pr : PullRequest) :
  (forall path,
     url (repository (head pr)) = "https://github.com/" ++ path ->
     occurs "https" path = false ->
     (private (repository (head pr)) = false ->
      get_repo_url pr = "git://github.com/" ++ path)
     /\ (private (repository (head pr)) = true ->
         occurs "git://github.com/" path = false ->
         get_repo_url pr = "git@github.com:" ++ path))
  /\ (occurs "https" (url (repository (head pr))) = false ->
      private (repository (head pr)) = false ->
      get_repo_url pr = url (repository (head pr))).
Proof.
  split.
  - intros path Hurl Hpath.
    assert (H1 : Py.replace "https" "git" (url (repository (head pr)))
                 = "git://github.com/" ++ path).
    { rewrite Hurl.
      change ("https://github.com/" ++ path)
        with ("https" ++ ("://github.com/" ++ path)).
      rewrite replace_head; [reflexivity | discriminate | exact Hpath]. }
    unfold get_repo_url. rewrite H1. split.
    + now intros ->.
    + intros -> Hgit. apply replace_head; [discriminate | exact Hgit].
  - intros Habs Hpub. unfold get_repo_url. rewrite Hpub.
    apply replace_absent; [discriminate | exact Habs].
Qed.

Lemma get_repo_url_github_witness :
  get_repo_url (example_pull_request 42 "master") = "git://github.com/adev/project"
  /\ get_repo_url example_private_pull_request = "git@github.com:adev/secret".
Proof.
  split.
  - apply (proj1 (get_repo_url_github (example_pull_request 42 "master"))
             "adev/project"); reflexivity.
  - apply (proj1 (get_repo_url_github example_private_pull_request) "adev/secret");
      reflexivity.
Defined.

(** Every [https] of the address is replaced, also inside the path. *)
Example get_repo_url_https_in_path :
  get_repo_url
    {| number := 1; title := ""; body := "";
       user := {| name := ""; login := "" |};
       head := {| ref := "master";
                  repository := {| url := "https://github.com/adev/https-proxy";
                                   private := false |} |};
       html_url := "" |}
  = "git://github.com/adev/git-proxy".
Proof. vm_compute. reflexivity. Qed.

Section BranchNames.
Local Open Scope nat_scope.

Lemma get_pull_request_ID_str (n : Z) (tail : string) :
  (0 <= n)%Z -> begins Re.digit tail = false ->
  get_pull_request_ID ("pull-request-" ++ Py.str n ++ tail) = Returns n.
Proof.
  intros Hn Htail. destruct (str_digits _ Hn) as [Hd Hl].
  rewrite get_pull_request_ID_scan, prefix_append.
  rewrite (slice_from_append "pull-request-").
  cbv zeta. rewrite take_run_exact by assumption.
  apply Nat.leb_le in Hl. rewrite Hl. apply int_str.
Qed.

Lemma build_branch_name_shape (pr : PullRequest) :
  exists tail,
    build_branch_name pr = "pull-request-" ++ Py.str (number pr) ++ tail
    /\ begins Re.digit tail = false.
Proof.
  rewrite build_branch_name_scan.
  destruct (key_scan (ref (head pr))) as [k|].
  - now exists ("-" ++ k).
  - exists "". now rewrite append_nil_r.
Qed.

Lemma digit_not_upper c : Re.digit c = true -> Re.upper c = false.
Proof. destruct c as [[] [] [] [] [] [] [] []]; cbv; congruence. Qed.

Lemma digits_not_upper d :
  Py.all_chars Re.digit d = true -> Py.all_chars not_upper d = true.
Proof.
  induction d as [|c d IH]; cbn [Py.all_chars]; [reflexivity |].
  intros H. apply andb_prop in H as [Hc Hd].
  unfold not_upper at 1. now rewrite (digit_not_upper c Hc), IH.
Qed.

Lemma str_not_upper (n : Z) : Py.all_chars not_upper (Py.str n) = true.
Proof.
  assert (Hu : forall u, Py.all_chars not_upper (NilZero.string_of_uint u) = true).
  { intros u. apply digits_not_upper. unfold NilZero.string_of_uint.
    destruct u; try apply string_of_uint_digits. reflexivity. }
  unfold Py.str. destruct n; cbn [Z.to_int NilZero.string_of_int].
  - reflexivity.
  - apply Hu.
  - cbn [Py.all_chars]. now rewrite Hu.
Qed.

Lemma key_scan_not_upper c s : Re.upper c = false -> key_scan (String c s) = None.
Proof. intros H. unfold key_scan. cbn [take_run]. now rewrite H. Qed.

Lemma find_key_skip (a t : string) : forall i,
  Py.all_chars not_upper a = true ->
  find_key i (a ++ t) = find_key (i + String.length a) t.
Proof.
  induction a as [|c a IH]; intros i H.
  - simpl. now rewrite Nat.add_0_r.
  - cbn [Py.all_chars] in H. apply andb_prop in H as [Hc Ha].
    apply negb_true_iff in Hc.
    change (String c a ++ t) with (String c (a ++ t)).
    cbn [find_key]. rewrite (key_scan_not_upper c _ Hc), IH by assumption.
    cbn [String.length]. f_equal. lia.
Qed.

Lemma key_scan_key k : issue_key k -> key_scan k = Some k.
Proof.
  intros Hk. pose proof (key_scan_complete k "" Hk) as H.
  now rewrite !append_nil_r in H.
Qed.

Lemma find_key_key k i : issue_key k -> find_key i k = Some (i, k).
Proof.
  intros Hk. apply key_scan_key in Hk.
  destruct k; cbn [find_key]; now rewrite Hk.
Qed.

End BranchNames.

(** X2: two pull requests (with numbers that are not negative) whose
    numbers differ are given different branch names, whatever their head
    refs are. *)
Theorem build_branch_name_injective (pr1 pr2 : PullRequest) :
  0 <= number pr1 -> 0 <= number pr2 ->
  build_branch_name pr1 = build_branch_name pr2 ->
  number pr1 = number pr2.
Proof.
  intros H1 H2 E.
  destruct (build_branch_name_shape pr1) as (t1 & E1 & Ht1).
  destruct (build_branch_name_shape pr2) as (t2 & E2 & Ht2).
  apply (f_equal get_pull_request_ID) in E.
  rewrite E1, E2 in E.
  rewrite !get_pull_request_ID_str in E by assumption.
  congruence.
Qed.

Lemma build_branch_name_injective_witness :
  build_branch_name (example_pull_request 42 "ABC-123-foo")
  = build_branch_name (example_pull_request 42 "ABC-123-bar")
  /\ number (example_pull_request 42 "ABC-123-foo")
     = number (example_pull_request 42 "ABC-123-bar").
Proof.
  split; [reflexivity |].
  apply (build_branch_name_injective (example_pull_request 42 "ABC-123-foo")
           (example_pull_request 42 "ABC-123-bar"));
    [simpl; lia | simpl; lia | reflexivity].
Defined.

(** X3: the default title computed for the branch of a pull request is
    the issue key its head ref begins with (the longest one), and the
    whole branch name when there is none: the prefix [pull-request-<n>-]
    never yields a key of its own. *)
Theorem build_pull_request_title_of_branch (pr : PullRequest) :
  (forall k, longest_key_prefix (ref (head pr)) k ->
     build_pull_request_title (build_branch_name pr) = k)
  /\ ((~ exists k rest, issue_key k /\ ref (head pr) = k ++ rest) ->
      build_pull_request_title (build_branch_name pr) = build_branch_name pr).
Proof.
  rewrite build_pull_request_title_find, build_branch_name_scan. split.
  - intros k Hk. pose proof Hk as [Hkey _].
    apply key_scan_longest in Hk. rewrite Hk.
    replace ("pull-request-" ++ Py.str (number pr) ++ "-" ++ k)
      with (("pull-request-" ++ Py.str (number pr) ++ "-") ++ k)
      by now rewrite !append_assoc.
    rewrite find_key_skip.
    + now rewrite find_key_key.
    + rewrite !all_chars_append, str_not_upper. reflexivity.
  - intros H. apply key_scan_none in H. rewrite H.
    rewrite <- (append_nil_r ("pull-request-" ++ Py.str (number pr))).
    rewrite find_key_skip.
    + rewrite append_nil_r. reflexivity.
    + rewrite !all_chars_append, str_not_upper. reflexivity.
Qed.

Lemma build_pull_request_title_of_branch_witness :
  build_pull_request_title (build_branch_name (example_pull_request 42 "ABC-123-foo"))
  = "ABC-123"
  /\ build_pull_request_title (build_branch_name (example_pull_request 7 "misc-fix"))
     = "pull-request-7".
Proof.
  split.
  - apply (proj1 (build_pull_request_title_of_branch
                    (example_pull_request 42 "ABC-123-foo"))).
    apply key_scan_longest. reflexivity.
  - apply (proj2 (build_pull_request_title_of_branch
                    (example_pull_request 7 "misc-fix"))).
    apply key_scan_none. reflexivity.
Defined.

(** X4: computing the default title of a default title changes nothing. *)
Theorem build_pull_request_title_idempotent (branch_name : string) :
  build_pull_request_title (build_pull_request_title branch_name)
  = build_pull_request_title branch_name.
Proof.
  rewrite (build_pull_request_title_find branch_name).
  destruct (find_key 0 branch_name) as [[j k]|] eqn:E.
  - destruct (find_key_sound _ _ _ _ E) as (a & b & _ & _ & Hk & _).
    now rewrite build_pull_request_title_find, find_key_key.
  - now rewrite build_pull_request_title_find, E.
Qed.

(** * Fetching: the properties *)

#[local] Arguments String.append : simpl never.
#[local] Arguments get_pull_request_ID : simpl never.
#[local] Arguments build_branch_name : simpl never.
#[local] Arguments get_repo_url : simpl never.
#[local] Arguments git_fetch : simpl never.
#[local] Arguments update_branch : simpl never.

Lemma build_branch_name_prefix (pr : PullRequest) :
  String.prefix "pull-request-" (build_branch_name pr) = true.
Proof.
  destruct (build_branch_name_shape pr) as (tail & -> & _). apply prefix_append.
Qed.

Lemma get_current_branch_name_pass env (w : World) :
  String.prefix "pull-request-"
    (Py.strip (popen_output env (trace w) "git rev-parse --abbrev-ref HEAD")) = true ->
  get_current_branch_name env true w
  = (Returns (Py.strip (popen_output env (trace w) "git rev-parse --abbrev-ref HEAD")),
     {| cwd := cwd w; files := files w;
        trace := trace w ++ [Popen "git rev-parse --abbrev-ref HEAD"] |}).
Proof.
  intros H. unfold get_current_branch_name, mbind, M_bind, os_popen_read.
  cbv beta iota zeta.
  change 13%nat with (String.length "pull-request-").
  rewrite slice_to_prefix, H. reflexivity.
Qed.

(** X5: a branch that [fetch_pull_request] returns is the one built for
    the pull request, fetched by a single [git fetch]; wherever git later
    reports it as the current branch it passes the pull-request test of
    [get_current_branch_name], and its ID is the number of the pull
    request. *)
Theorem fetched_branch_recognised env (pr : PullRequest) (w w1 : World)
    (branch_name : string) :
  0 <= number pr ->
  fetch_pull_request env pr w = (Returns branch_name, w1) ->
  branch_name = build_branch_name pr
  /\ w1 = {| cwd := cwd w; files := files w;
             trace := trace w ++ [System (git_fetch pr)] |}
  /\ get_pull_request_ID branch_name = Returns (number pr)
  /\ forall env2 w2,
       Py.strip (popen_output env2 (trace w2) "git rev-parse --abbrev-ref HEAD")
       = branch_name ->
       fst (get_current_branch_name env2 true w2) = Returns branch_name.
Proof.
  intros Hn H.
  unfold fetch_pull_request, os_system, raise, record, mbind, M_bind, mret, M_ret in H.
  cbn in H.
  destruct (negb (system_status env (trace w) (git_fetch pr) =? 0));
    cbn in H; [discriminate H | injection H as <- <-].
  split; [reflexivity |]. split; [reflexivity |]. split.
  - destruct (build_branch_name_shape pr) as (tail & -> & Ht).
    now apply get_pull_request_ID_str.
  - intros env2 w2 Hb. rewrite get_current_branch_name_pass.
    + cbn. now rewrite Hb.
    + rewrite Hb. apply build_branch_name_prefix.
Qed.

Lemma fetched_branch_recognised_witness :
  let env := example_env (fun _ => 0) (on_branch "pull-request-42-ABC-123") None in
  let pr := example_pull_request 42 "ABC-123-foo" in
  fetch_pull_request env pr (fresh "/home/dev/project")
  = (Returns "pull-request-42-ABC-123",
     {| cwd := "/home/dev/project"; files := ∅;
        trace := [System "git fetch git://github.com/adev/project ABC-123-foo:pull-request-42-ABC-123"] |})
  /\ get_pull_request_ID "pull-request-42-ABC-123" = Returns 42
  /\ fst (get_current_branch_name env true (fresh "/home/dev/project"))
     = Returns "pull-request-42-ABC-123".
Proof.
  intros env pr.
  assert (H : fetch_pull_request env pr (fresh "/home/dev/project")
    = (Returns "pull-request-42-ABC-123",
       {| cwd := "/home/dev/project"; files := ∅;
          trace := [System "git fetch git://github.com/adev/project ABC-123-foo:pull-request-42-ABC-123"] |}))
    by reflexivity.
  split; [exact H |].
  destruct (fetched_branch_recognised env pr _ _ _ ltac:(simpl; lia) H)
    as (_ & _ & Hid & Hcur).
  split; [exact Hid |]. apply Hcur. reflexivity.
Defined.

(** X6: once the pull request has been retrieved, [command_fetch] fetches
    it and then: stops with "Fetch failed" when the fetch fails; with
    automatic update on, updates the new branch, whatever
    [fetch-auto-checkout] says; with both off, checks nothing out: the
    fetch is the only command it runs. *)
Theorem command_fetch_after_fetch env options (repo_name pull_request_ID : string)
    (auto_update : value) (w w1 : World) (pr : PullRequest) :
  get_pull_request_word env repo_name pull_request_ID w = (Returns pr, w1) ->
  let w2 := {| cwd := cwd w1; files := files w1;
               trace := trace w1 ++ [System (git_fetch pr)] |} in
  let run := command_fetch env options repo_name pull_request_ID auto_update w in
  (system_status env (trace w1) (git_fetch pr) <> 0 ->
   run = (Raises (UserWarning "Fetch failed"), w2))
  /\ (system_status env (trace w1) (git_fetch pr) = 0 ->
      truthy auto_update = true ->
      run = (update_branch env options (build_branch_name pr)
               ≫= fun _ => display_status env) w2)
  /\ (system_status env (trace w1) (git_fetch pr) = 0 ->
      truthy auto_update = false ->
      forall auto_checkout,
        options !! "fetch-auto-checkout" = Some auto_checkout ->
        truthy auto_checkout = false ->
        run = (Returns tt,
               {| cwd := cwd w1; files := files w1;
                  trace := trace w1 ++ [System (git_fetch pr);
                                        Popen "git rev-parse --abbrev-ref HEAD"] |})).
Proof.
  intros H w2 run. subst w2 run. unfold command_fetch.
  rewrite bind_unfold, H.
  unfold fetch_pull_request, display_pull_request. unfold_ops.
  split; [| split].
  - intros Hs. apply Z.eqb_neq in Hs. run. now rewrite Hs.
  - intros Hs Ha. run. rewrite Hs, Ha. reflexivity.
  - intros Hs Ha ac Hac Htac. run. rewrite Hs, Ha.
    change (negb (0 =? 0)) with false. cbn.
    rewrite Hac. cbn. rewrite Htac. cbn. norm_trace. reflexivity.
Qed.

Lemma command_fetch_after_fetch_witness :
  let pr := example_pull_request 42 "ABC-123-foo" in
  command_fetch (pull_reply pr) default_options "owner/project" "42" (VBool false)
    (fresh "/home/dev/project")
  = (Returns tt,
     {| cwd := "/home/dev/project"; files := ∅;
        trace := [Request "http://github.com/api/v2/json/pulls/owner/project/42" None;
                  System (git_fetch pr);
                  Popen "git rev-parse --abbrev-ref HEAD"] |}).
Proof.
  intros pr.
  apply (proj2 (proj2 (command_fetch_after_fetch (pull_reply pr) default_options
                         "owner/project" "42" (VBool false)
                         (fresh "/home/dev/project")
                         {| cwd := "/home/dev/project"; files := ∅;
                            trace := [Request "http://github.com/api/v2/json/pulls/owner/project/42" None] |}
                         pr eq_refl)) eq_refl eq_refl (VBool false));
    reflexivity.
Defined.




(** X8: [get_default_repo_name] returns the configured [github.repo]
    when there is one, without looking at the remotes; it raises its
    "Failed to determine" warning exactly when the configuration is empty
    and the remote [origin] yields no repository name. *)
Theorem get_default_repo_name_sources env (w : World) :
  let configured := Py.strip (popen_output env (trace w) "git config github.repo") in
  let w1 := {| cwd := cwd w; files := files w;
               trace := trace w ++ [Popen "git config github.repo"] |} in
  (configured <> "" -> get_default_repo_name env w = (Returns configured, w1))
  /\ (fst (get_default_repo_name env w)
      = Raises (UserWarning "Failed to determine github repository name")
      <-> configured = ""
          /\ unresolved (fst (get_repo_name_for_remote env "origin" w1))).
Proof.
  intros configured w1. subst configured w1.
  unfold get_default_repo_name. unfold_ops. run.
  set (configured := Py.strip (popen_output env (trace w) "git config github.repo")).
  destruct (get_repo_name_for_remote_returns env "origin"
              {| cwd := cwd w; files := files w;
                 trace := trace w ++ [Popen "git config github.repo"] |})
    as [r Hr].
  rewrite Hr. cbn.
  destruct (configured =? "")%string eqn:E; cbn.
  - apply String.eqb_eq in E. rewrite E. split; [congruence |].
    rewrite Hr. cbn. destruct r as [[|c s]|]; cbn.
    + split; [intros _; split; [reflexivity | now right] | reflexivity].
    + split; [discriminate | intros [_ [H | H]]; discriminate H].
    + split; [intros _; split; [reflexivity | now left] | reflexivity].
  - apply String.eqb_neq in E. split.
    + intros _. destruct configured; [congruence | reflexivity].
    + destruct configured; [congruence |]. cbn.
      split; [discriminate | intros [H _]; discriminate H].
Qed.

Lemma get_default_repo_name_sources_witness :
  get_default_repo_name (example_env (fun _ => 0) only_repo_config None)
    (fresh "/home/dev/project")
  = (Returns "owner/project",
     {| cwd := "/home/dev/project"; files := ∅;
        trace := [Popen "git config github.repo"] |}).
Proof.
  apply (proj1 (get_default_repo_name_sources
                  (example_env (fun _ => 0) only_repo_config None)
                  (fresh "/home/dev/project"))).
  discriminate.
Defined.

(** * The update state machine: more properties *)

(** X9: inside the work directory, once [master] is checked out there
    and the directory of the primary checkout is found and entered,
    [complete_update] records that directory in the breadcrumb file and
    brings the primary checkout to the updated branch: by a hard reset
    and clean when it is already on that branch, by checking the branch
    out otherwise.  That command is the last thing it does, and its
    status decides the outcome. *)
Theorem complete_update_resync env (branch_name original : string) (w : World) :
  fst (in_work_dir env w) = Returns true ->
  system_status env (trace w ++ [Popen "git rev-parse --show-toplevel"])
    "git checkout master" = 0 ->
  fst (get_original_dir_path env
         {| cwd := cwd w; files := files w;
            trace := trace w ++ [Popen "git rev-parse --show-toplevel";
                                 System "git checkout master"] |})
  = Returns original ->
  chdir_ok env
    (trace w ++ [Popen "git rev-parse --show-toplevel";
                 System "git checkout master";
                 Popen "git rev-parse --show-toplevel"]) original = true ->
  let t3 := (trace w ++ [Popen "git rev-parse --show-toplevel";
                         System "git checkout master";
                         Popen "git rev-parse --show-toplevel";
                         Chdir original; WriteFile breadcrumb original])%list in
  let current := Py.strip (popen_output env t3 "git rev-parse --abbrev-ref HEAD") in
  let cmd := if (current =? branch_name)%string then reset_and_clean
             else "git checkout " ++ branch_name in
  let status :=
    system_status env (t3 ++ [Popen "git rev-parse --abbrev-ref HEAD"])%list cmd in
  snd (complete_update env branch_name w)
  = {| cwd := Py.path_join (cwd w) original;
       files := <[breadcrumb := original]> (files w);
       trace := t3 ++ [Popen "git rev-parse --abbrev-ref HEAD"; System cmd] |}
  /\ (status = 0 -> fst (complete_update env branch_name w) = Returns tt)
  /\ (status <> 0 ->
      fst (complete_update env branch_name w)
      = Raises (UserWarning
          (if (current =? branch_name)%string
           then "Syncing branch " ++ branch_name ++ " with work directory failed"
           else "Could not checkout " ++ branch_name))).
Proof.
  intros Hin Hco Horig Hcd t3 current cmd status.
  subst status cmd current t3.
  revert Hin Horig.
  unfold complete_update. unfold_ops. run.
  intros Hin. injection Hin as Hin. rewrite Hin. cbn.
  rewrite Hco. change (negb (0 =? 0)) with false. cbn.
  norm_trace.
  destruct (readlink env _ _) as [target|]; [| discriminate].
  cbn. intros Horig. injection Horig as Horig. rewrite Horig.
  norm_trace. rewrite Hcd. cbn. norm_trace.
  destruct (_ =? branch_name)%string; cbn; norm_trace.
  - split; [now destruct (negb _) |].
    split.
    + intros Hs. rewrite Hs. reflexivity.
    + intros Hs. apply Z.eqb_neq in Hs. now rewrite Hs.
  - split; [now destruct (negb _) |].
    split.
    + intros Hs. rewrite Hs. reflexivity.
    + intros Hs. apply Z.eqb_neq in Hs. now rewrite Hs.
Qed.

Lemma complete_update_resync_witness :
  let env := work_dir_env (fun _ => 0) (on_branch "pull-request-42") in
  snd (complete_update env "pull-request-42" in_work_directory)
  = {| cwd := "/home/dev/project";
       files := <[breadcrumb := "/home/dev/project"]> ∅;
       trace := [Chdir "/home/dev/work";
                 Popen "git rev-parse --show-toplevel";
                 System "git checkout master";
                 Popen "git rev-parse --show-toplevel";
                 Chdir "/home/dev/project";
                 WriteFile breadcrumb "/home/dev/project";
                 Popen "git rev-parse --abbrev-ref HEAD";
                 System reset_and_clean] |}
  /\ fst (complete_update env "pull-request-42" in_work_directory) = Returns tt.
Proof.
  intros env.
  destruct (complete_update_resync env "pull-request-42" "/home/dev/project"
              in_work_directory eq_refl eq_refl eq_refl eq_refl) as (Hw & Hok & _).
  split; [exact Hw | apply Hok; reflexivity].
Defined.

(** X10: when the branch is checked out and the merge (or rebase) onto
    it succeeds, [update_branch] goes on to [complete_update] without
    raising a conflict and without touching the breadcrumb file; outside
    a work directory that ends the update at once, the merge being the
    last command run. *)
Theorem update_branch_completes env options (branch_name method cmd : string)
    (w w1 : World) :
  checked_out env options branch_name w w1 ->
  (method = "merge" /\ cmd = "git merge master")
  \/ (method = "rebase" /\ cmd = "git rebase master") ->
  options !! "update-method" = Some (VStr method) ->
  system_status env (trace w1) cmd = 0 ->
  let w2 := {| cwd := cwd w1; files := files w1;
               trace := trace w1 ++ [System cmd] |} in
  update_branch env options branch_name w = complete_update env branch_name w2
  /\ (fst (in_work_dir env w2) = Returns false ->
      update_branch env options branch_name w
      = (Returns tt,
         {| cwd := cwd w1; files := files w1;
            trace := trace w1 ++ [System cmd;
                                  Popen "git rev-parse --show-toplevel"] |})).
Proof.
  intros Hco Hm Hopt Hs w2. subst w2.
  rewrite (update_branch_checked_out _ _ _ _ _ Hco).
  assert (H : update_branch_rest env options branch_name w1
              = complete_update env branch_name
                  {| cwd := cwd w1; files := files w1;
                     trace := trace w1 ++ [System cmd] |}).
  { unfold update_branch_rest, option_. rewrite Hopt.
    destruct Hm as [[-> ->] | [-> ->]]; unfold_ops; run; rewrite Hs;
      reflexivity. }
  split; [exact H |].
  rewrite H. unfold complete_update. unfold_ops. run.
  intros [= ->]. cbn. norm_trace. reflexivity.
Qed.

Lemma update_branch_completes_witness :
  let env := example_env (fun _ => 0) (on_branch "master") None in
  update_branch env default_options "pull-request-42" (fresh "/home/dev/project")
  = (Returns tt,
     {| cwd := "/home/dev/project"; files := ∅;
        trace := [Popen "git rev-parse --show-toplevel";
                  System "git checkout pull-request-42";
                  System "git merge master";
                  Popen "git rev-parse --show-toplevel"] |}).
Proof.
  intros env.
  apply (proj2 (update_branch_completes env default_options "pull-request-42"
                  "merge" "git merge master" (fresh "/home/dev/project")
                  {| cwd := "/home/dev/project"; files := ∅;
                     trace := [Popen "git rev-parse --show-toplevel";
                               System "git checkout pull-request-42"] |}
                  (checked_out_primary env default_options "pull-request-42"
                     (fresh "/home/dev/project") VNone eq_refl eq_refl eq_refl eq_refl)
                  (or_introl (conj eq_refl eq_refl)) eq_refl eq_refl)).
  reflexivity.
Defined.

(** X11: after a successful commit (or continued rebase),
    [continue_update] completes the branch that is then current, not a
    branch remembered from the start of the update; and when the current
    branch is not a pull-request branch it raises the "Invalid branch"
    warning with the commit already made and no completion step run. *)
Theorem continue_update_rederives env options (method cmd : string) (w : World) :
  (method = "merge" /\ cmd = "git commit")
  \/ (method = "rebase" /\ cmd = "git rebase --continue") ->
  options !! "update-method" = Some (VStr method) ->
  system_status env (trace w) cmd = 0 ->
  let w2 := {| cwd := cwd w; files := files w;
               trace := trace w ++ [System cmd;
                                    Popen "git rev-parse --abbrev-ref HEAD"] |} in
  let current :=
    Py.strip (popen_output env (trace w ++ [System cmd])
                "git rev-parse --abbrev-ref HEAD") in
  (String.prefix "pull-request-" current = true ->
   continue_update env options w = complete_update env current w2)
  /\ (String.prefix "pull-request-" current = false ->
      continue_update env options w = (Raises InvalidBranchError, w2)).
Proof.
  intros Hm Hopt Hs w2 current. subst w2 current.
  unfold continue_update, option_. rewrite Hopt.
  assert (Hstep : forall f : option Z -> M unit,
    ((if value_eqb_str (VStr method) "merge"
      then r ← os_system env "git commit"; mret (Some r)
      else if value_eqb_str (VStr method) "rebase"
           then r ← os_system env "git rebase --continue"; mret (Some r)
           else mret None) ≫= f) w
    = f (Some 0) {| cwd := cwd w; files := files w;
                    trace := trace w ++ [System cmd] |}).
  { intros f. destruct Hm as [[-> ->] | [-> ->]]; unfold_ops; run;
      now rewrite Hs. }
  rewrite bind_unfold. cbn [mret M_ret].
  rewrite Hstep. change (negb (0 =? 0)) with false. cbv iota.
  rewrite bind_unfold.
  split; intros Hp.
  - rewrite (get_current_branch_name_pass env
               {| cwd := cwd w; files := files w;
                  trace := trace w ++ [System cmd] |} Hp).
    cbn [trace cwd files]. norm_trace. reflexivity.
  - rewrite (get_current_branch_name_guard env
               {| cwd := cwd w; files := files w;
                  trace := trace w ++ [System cmd] |} Hp).
    cbn [trace cwd files]. norm_trace. reflexivity.
Qed.

Lemma continue_update_rederives_witness :
  let env := example_env (fun _ => 0) (on_branch "HEAD") None in
  continue_update env default_options (fresh "/home/dev/work")
  = (Raises InvalidBranchError,
     {| cwd := "/home/dev/work"; files := ∅;
        trace := [System "git commit"; Popen "git rev-parse --abbrev-ref HEAD"] |}).
Proof.
  intros env.
  apply (proj2 (continue_update_rederives env default_options "merge" "git commit"
                  (fresh "/home/dev/work")
                  (or_introl (conj eq_refl eq_refl)) eq_refl eq_refl)).
  reflexivity.
Defined.

Ltac step_ok :=
  cbn;
  first [ exact I | reflexivity
        | solve [auto 12]
        | right; exists "master"; reflexivity
        | right; eexists; reflexivity ].

Ltac steps_ok :=
  eexists;
  split; [first [norm_trace; reflexivity | symmetry; apply app_nil_r] |];
  repeat first [apply List.Forall_nil | apply List.Forall_cons; [step_ok |]].

(** X12: whatever happens, [update_branch], [continue_update] and
    [complete_update] only ask git for the top-level path and the current
    branch, run reset-and-clean, checkout, merge, rebase or commit, change
    directory and write the breadcrumb file: they never push, fetch or
    delete a branch, never write another file and never send a request. *)
Theorem update_steps_only env options (branch_name : string) (w : World) :
  (exists t,
     trace (snd (update_branch env options branch_name w)) = (trace w ++ t)%list
     /\ Forall update_step t)
  /\ (exists t,
        trace (snd (continue_update env options w)) = (trace w ++ t)%list
        /\ Forall update_step t)
  /\ (exists t,
        trace (snd (complete_update env branch_name w)) = (trace w ++ t)%list
        /\ Forall update_step t).
Proof.
  split; [| split].
  - unfold update_branch, complete_update. unfold_ops. run.
    branches; steps_ok.
  - unfold continue_update, complete_update. unfold_ops. run.
    branches; steps_ok.
  - unfold complete_update. unfold_ops. run.
    branches; steps_ok.
Qed.

(** X13: in a checkout whose [.git/config] is never a symbolic link and
    with no work directory configured, [update_branch] stays where it is,
    writes no file, and runs nothing but the checkout of the branch and
    the merge or rebase: in particular it never runs [git reset --hard]
    or [git clean]. *)
Theorem update_branch_plain env options (branch_name : string) (work_dir : value)
    (w : World) :
  (forall t path, islink env t path = false) ->
  options !! "work-dir" = Some work_dir ->
  truthy work_dir = false ->
  exists t,
    snd (update_branch env options branch_name w)
    = {| cwd := cwd w; files := files w; trace := trace w ++ t |}
    /\ Forall (plain_step branch_name) t.
Proof.
  intros Hlink Hwd Ht.
  unfold update_branch, complete_update. unfold_ops. run.
  repeat (first [rewrite Hlink | rewrite Hwd | rewrite Ht | branch]; cbn);
    (eexists; split; [norm_trace; reflexivity |];
     repeat first [apply List.Forall_nil
                  | apply List.Forall_cons; [unfold plain_step; solve [auto 6] |]]).
Qed.

Lemma update_branch_plain_witness :
  let env := example_env (failing "git merge master") (on_branch "master") None in
  exists t,
    snd (update_branch env default_options "pull-request-42"
           (fresh "/home/dev/project"))
    = {| cwd := "/home/dev/project"; files := ∅; trace := [] ++ t |}
    /\ Forall (plain_step "pull-request-42") t.
Proof.
  intros env.
  apply (update_branch_plain env default_options "pull-request-42" VNone
           (fresh "/home/dev/project")); reflexivity.
Defined.

(** * Merging, closing, pulling, showing: the properties *)











(** X18: on a pull-request branch whose pull request github returns,
    [command_pull] pulls the head ref of that pull request from the
    address of its repository, and nothing else; a failing pull raises
    "Pull failed, resolve conflicts". *)
Theorem command_pull_from_head env (repo_name : string) (n : Z)
    (pr : PullRequest) (w w2 : World) :
  let branch_name :=
    Py.strip (popen_output env (trace w) "git rev-parse --abbrev-ref HEAD") in
  let w1 := {| cwd := cwd w; files := files w;
               trace := trace w ++ [Popen "git rev-parse --abbrev-ref HEAD"] |} in
  let cmd := "git pull " ++ get_repo_url pr ++ " " ++ ref (head pr) in
  String.prefix "pull-request-" branch_name = true ->
  get_pull_request_ID branch_name = Returns n ->
  get_pull_request env repo_name n w1 = (Returns pr, w2) ->
  (system_status env (trace w2) cmd = 0 ->
   command_pull env repo_name w
   = (Returns tt,
      {| cwd := cwd w2; files := files w2;
         trace := trace w2 ++ [System cmd;
                               Popen "git rev-parse --abbrev-ref HEAD"] |}))
  /\ (system_status env (trace w2) cmd <> 0 ->
      command_pull env repo_name w
      = (Raises (UserWarning "Pull failed, resolve conflicts"),
         {| cwd := cwd w2; files := files w2;
            trace := trace w2 ++ [System cmd] |})).
Proof.
  intros branch_name w1 cmd Hp Hid Hget. subst branch_name w1 cmd.
  split; intros Hs; unfold command_pull;
    rewrite bind_unfold, (get_current_branch_name_pass env w Hp);
    rewrite bind_unfold; unfold lift; rewrite Hid;
    rewrite bind_unfold, Hget; unfold_ops; run.
  - rewrite Hs. change (negb (0 =? 0)) with false. cbn. norm_trace.
    reflexivity.
  - apply Z.eqb_neq in Hs. now rewrite Hs.
Qed.

Lemma command_pull_from_head_witness :
  let pr := example_pull_request 42 "ABC-123-foo" in
  let env :=
    {| system_status := fun _ _ => 256;
       popen_output := fun _ cmd => on_branch "pull-request-42-ABC-123" cmd;
       chdir_ok := fun _ _ => true;
       islink := fun _ _ => false;
       readlink := fun _ _ => None;
       urlopen := fun _ _ _ => Body "{...}";
       json_loads := fun _ => Some {| pull := Some pr |} |} in
  command_pull env "owner/project" (fresh "/home/dev/project")
  = (Raises (UserWarning "Pull failed, resolve conflicts"),
     {| cwd := "/home/dev/project"; files := ∅;
        trace := [Popen "git rev-parse --abbrev-ref HEAD";
                  Request "http://github.com/api/v2/json/pulls/owner/project/42" None;
                  System "git pull git://github.com/adev/project ABC-123-foo"] |}).
Proof.
  intros pr env.
  apply (proj2 (command_pull_from_head env "owner/project" 42 pr
                  (fresh "/home/dev/project")
                  {| cwd := "/home/dev/project"; files := ∅;
                     trace := [Popen "git rev-parse --abbrev-ref HEAD";
                               Request "http://github.com/api/v2/json/pulls/owner/project/42" None] |}
                  eq_refl eq_refl eq_refl)).
  vm_compute. discriminate.
Defined.

(** * Reading the remotes: the properties *)

#[local] Arguments String.append !s1 s2 : simpl nomatch.

Section Remotes.
Local Open Scope nat_scope.

Lemma none_before_suffix old tail : forall a,
  none_before old a tail = true ->
  forall a1 a2, a = a1 ++ a2 -> a2 <> "" -> String.prefix old (a2 ++ tail) = false.
Proof.
  induction a as [|c a IH]; intros H a1 a2 E Hne.
  - destruct a1; [simpl in E; congruence | discriminate].
  - cbn [none_before] in H. apply andb_prop in H as [H1 H2].
    apply negb_true_iff in H1.
    destruct a1 as [|c1 a1]; simpl in E.
    + now rewrite <- E.
    + injection E as _ E. now apply (IH H2 a1 a2).
Qed.

Lemma rep_lazy_first {R : Type} p (k : @Re.cont R) (tail : string) (r : R) :
  forall a prev i,
    Py.all_chars p a = true ->
    (forall a1 a2, a = a1 ++ a2 -> a2 <> "" ->
       k (last_char prev a1) (i + String.length a1) (a2 ++ tail) = None) ->
    k (last_char prev a) (i + String.length a) tail = Some r ->
    Re.rep_lazy p k prev i (a ++ tail) = Some r.
Proof.
  induction a as [|c a IH]; intros prev i Hall Hnone Hk.
  - simpl in *. rewrite Nat.add_0_r in Hk.
    destruct tail; cbn [Re.rep_lazy]; now rewrite Hk.
  - cbn [Py.all_chars] in Hall. apply andb_prop in Hall as [Hc Ha].
    change (String c a ++ tail) with (String c (a ++ tail)).
    cbn [Re.rep_lazy].
    pose proof (Hnone "" (String c a) eq_refl ltac:(discriminate)) as H0.
    simpl in H0. rewrite Nat.add_0_r in H0. rewrite H0, Hc.
    apply IH.
    + exact Ha.
    + intros a1 a2 E Hne.
      specialize (Hnone (String c a1) a2). simpl in Hnone.
      rewrite <- plus_n_Sm in Hnone. apply Hnone; [now rewrite E | exact Hne].
    + simpl in Hk. now rewrite <- plus_n_Sm in Hk.
Qed.

Lemma match_lits_end ml l g prev i s :
  Re.match_items ml (Re.lits l) g prev i s
  = if String.prefix l s then Some (i + String.length l, g) else None.
Proof.
  rewrite <- (app_nil_r (Re.lits l)), match_lits. reflexivity.
Qed.

Lemma rep_lazy_now {R : Type} p (k : @Re.cont R) prev i s r :
  k prev i s = Some r -> Re.rep_lazy p k prev i s = Some r.
Proof. intros H. destruct s; cbn [Re.rep_lazy]; now rewrite H. Qed.

Lemma match_Rep ml greedy n p its g prev i s :
  Re.match_items ml (Re.Rep greedy n p :: its) g prev i s
  = Re.rep_min n p
      ((if greedy then Re.rep_greedy else Re.rep_lazy) p
         (fun prev' i' s' => Re.match_items ml its g prev' i' s'))
      prev i s.
Proof. reflexivity. Qed.

Lemma match_Cls ml p its g prev i c s :
  Re.match_items ml (Re.Cls p :: its) g prev i (String c s)
  = if p c then Re.match_items ml its g (Some c) (S i) s else None.
Proof. reflexivity. Qed.

Lemma match_GOpen ml its g prev i s :
  Re.match_items ml (Re.GOpen :: its) g prev i s
  = Re.match_items ml its (i, snd g) prev i s.
Proof. reflexivity. Qed.

Lemma match_GClose ml its g prev i s :
  Re.match_items ml (Re.GClose :: its) g prev i s
  = Re.match_items ml its (fst g, Some (fst g, i)) prev i s.
Proof. reflexivity. Qed.

Lemma match_Bol ml its g prev i s :
  Re.match_items ml (Re.Bol :: its) g prev i s
  = if Re.at_bol ml prev then Re.match_items ml its g prev i s else None.
Proof. reflexivity. Qed.

Lemma rep_min_1 {R : Type} p (k : @Re.cont R) prev i c s :
  p c = true -> Re.rep_min 1 p k prev i (String c s) = k (Some c) (S i) s.
Proof. intros H. cbn [Re.rep_min]. now rewrite H. Qed.

(** The end of the pattern, from the opening of the group. *)
Lemma match_group (r0 : ascii) (repo' rest : string) g prev i :
  Re.not_newline r0 = true ->
  Py.all_chars Re.not_newline repo' = true ->
  none_before ".git" repo' (".git" ++ rest) = true ->
  Re.match_items true
    (Re.GOpen :: Re.Rep false 1 Re.not_newline :: Re.GClose :: Re.lits ".git")
    g prev i (String r0 (repo' ++ ".git" ++ rest))
  = Some (S i + String.length repo' + 4,
          (i, Some (i, S i + String.length repo'))).
Proof.
  intros Hr0 Hrepo Hnone.
  rewrite match_GOpen, match_Rep, rep_min_1 by exact Hr0.
  apply rep_lazy_first.
  - exact Hrepo.
  - intros a1 a2 E Hne.
    rewrite match_GClose, match_lits_end.
    now rewrite (none_before_suffix _ _ _ Hnone a1 a2 E Hne).
  - rewrite match_GClose, match_lits_end, prefix_append. reflexivity.
Qed.

(** The pattern after [github.com]. *)
Lemma match_after_host (sep r0 : ascii) (repo' rest : string) g prev i :
  sep = ":"%char \/ sep = "/"%char ->
  Re.not_newline r0 = true ->
  Py.all_chars Re.not_newline repo' = true ->
  none_before ".git" repo' (".git" ++ rest) = true ->
  Re.match_items true
    ([Re.Rep false 0 Re.not_newline;
      Re.Cls (fun c => Ascii.eqb c ":" || Ascii.eqb c "/");
      Re.GOpen; Re.Rep false 1 Re.not_newline; Re.GClose] ++ Re.lits ".git")%list
    g prev i (String sep (String r0 (repo' ++ ".git" ++ rest)))
  = Some (S (S i) + String.length repo' + 4,
          (S i, Some (S i, S (S i) + String.length repo'))).
Proof.
  intros Hsep Hr0 Hrepo Hnone.
  change ([Re.Rep false 0 Re.not_newline;
           Re.Cls (fun c => Ascii.eqb c ":" || Ascii.eqb c "/");
           Re.GOpen; Re.Rep false 1 Re.not_newline; Re.GClose] ++ Re.lits ".git")%list
    with (Re.Rep false 0 Re.not_newline
          :: Re.Cls (fun c => Ascii.eqb c ":" || Ascii.eqb c "/")
          :: Re.GOpen :: Re.Rep false 1 Re.not_newline :: Re.GClose
          :: Re.lits ".git").
  rewrite match_Rep. cbn [Re.rep_min].
  apply rep_lazy_now.
  rewrite match_Cls.
  assert (Hs : Ascii.eqb sep ":" || Ascii.eqb sep "/" = true)
    by (destruct Hsep as [-> | ->]; reflexivity).
  rewrite Hs.
  exact (match_group r0 repo' rest g (Some sep) (S i) Hr0 Hrepo Hnone).
Qed.

(** The pattern after the name of the remote. *)
Lemma match_after_name (m0 sep r0 : ascii) (mid' repo' rest : string) g prev i :
  let tail := String sep (String r0 (repo' ++ ".git" ++ rest)) in
  Re.not_newline m0 = true ->
  Py.all_chars Re.not_newline mid' = true ->
  none_before "github.com" mid' ("github.com" ++ tail) = true ->
  sep = ":"%char \/ sep = "/"%char ->
  Re.not_newline r0 = true ->
  Py.all_chars Re.not_newline repo' = true ->
  none_before ".git" repo' (".git" ++ rest) = true ->
  let a := S i + String.length mid' + 10 in
  Re.match_items true
    ([Re.Rep false 1 Re.not_newline] ++ Re.lits "github.com"
     ++ [Re.Rep false 0 Re.not_newline;
         Re.Cls (fun c => Ascii.eqb c ":" || Ascii.eqb c "/");
         Re.GOpen; Re.Rep false 1 Re.not_newline; Re.GClose]
     ++ Re.lits ".git")%list
    g prev i (String m0 (mid' ++ "github.com" ++ tail))
  = Some (S (S a) + String.length repo' + 4,
          (S a, Some (S a, S (S a) + String.length repo'))).
Proof.
  intros tail Hm0 Hmid Hnone1 Hsep Hr0 Hrepo Hnone2 a.
  cbn [app]. rewrite match_Rep, rep_min_1 by exact Hm0.
  apply rep_lazy_first.
  - exact Hmid.
  - intros a1 a2 E Hne.
    rewrite match_lits.
    now rewrite (none_before_suffix _ _ _ Hnone1 a1 a2 E Hne).
  - rewrite match_lits, prefix_append, slice_from_append.
    exact (match_after_host sep r0 repo' rest g _ _ Hsep Hr0 Hrepo Hnone2).
Qed.

Lemma search_skip name its whole tail : forall before prev i,
  none_before name before tail = true ->
  Re.search_from true (Re.Bol :: Re.lits name ++ its) whole prev i (before ++ tail)
  = Re.search_from true (Re.Bol :: Re.lits name ++ its) whole
      (last_char prev before) (i + String.length before) tail.
Proof.
  induction before as [|c before IH]; intros prev i H.
  - simpl. now rewrite Nat.add_0_r.
  - cbn [none_before] in H. apply andb_prop in H as [H1 H2].
    apply negb_true_iff in H1.
    change (String c before ++ tail) with (String c (before ++ tail)) in *.
    cbn [Re.search_from]. rewrite match_Bol, match_lits, H1.
    destruct (Re.at_bol true prev); rewrite (IH _ _ H2); simpl;
      now rewrite <- plus_n_Sm.
Qed.

Lemma search_from_now ml its whole prev i s e g :
  Re.match_items ml its (0, None) prev i s = Some (e, g) ->
  Re.search_from ml its whole prev i s
  = Some {| Re.m_string := whole; Re.m_start := i; Re.m_end := e;
            Re.m_group1 := snd g |}.
Proof. intros H. destruct s; cbn [Re.search_from]; now rewrite H. Qed.

Lemma search_remote_line name before mid sep repo rest :
  Re.at_bol true (last_char None before) = true ->
  none_before name before (remote_line name mid sep repo rest) = true ->
  lazy_stop "github.com" mid
    ("github.com" ++ String sep (repo ++ ".git" ++ rest)) = true ->
  sep = ":"%char \/ sep = "/"%char ->
  lazy_stop ".git" repo (".git" ++ rest) = true ->
  exists m,
    Re.search true (remote_pattern name)
      (before ++ remote_line name mid sep repo rest) = Some m
    /\ Re.group1 m = Some repo.
Proof.
  intros Hbol Hbefore Hmid Hsep Hrepo.
  destruct mid as [|m0 mid']; [discriminate |].
  destruct repo as [|r0 repo']; [discriminate |].
  unfold lazy_stop in Hmid, Hrepo.
  apply andb_prop in Hmid as [Hmid Hnone1].
  apply andb_prop in Hrepo as [Hrepo Hnone2].
  cbn [Py.all_chars] in Hmid, Hrepo.
  apply andb_prop in Hmid as [Hm0 Hmid].
  apply andb_prop in Hrepo as [Hr0 Hrepo].
  set (whole := before ++ remote_line name (String m0 mid') sep (String r0 repo') rest).
  unfold Re.search, remote_pattern. fold whole. unfold whole at 2.
  rewrite (search_skip _ _ _ _ _ _ _ Hbefore).
  eexists. split.
  - apply search_from_now.
    rewrite match_Bol, Hbol. unfold remote_line.
    rewrite match_lits, prefix_append, slice_from_append.
    change (String m0 mid' ++ "github.com"
            ++ String sep (String r0 repo' ++ ".git" ++ rest))
      with (String m0 (mid' ++ "github.com"
                       ++ String sep (String r0 (repo' ++ ".git" ++ rest)))).
    exact (match_after_name m0 sep r0 mid' repo' rest _ _ _
             Hm0 Hmid Hnone1 Hsep Hr0 Hrepo Hnone2).
  - unfold Re.group1; cbn [Re.m_group1 Re.m_string snd].
    f_equal.
    set (a := S (0 + String.length before + String.length name)
              + String.length mid' + 10).
    replace (S (S a) + String.length repo' - S a)
      with (String.length (String r0 repo')) by (simpl; lia).
    unfold whole, remote_line.
    replace (before ++ name ++ String m0 mid' ++ "github.com"
             ++ String sep (String r0 repo' ++ ".git" ++ rest))
      with ((before ++ name ++ String m0 mid' ++ "github.com" ++ String sep "")
            ++ String r0 repo' ++ ".git" ++ rest)
      by (rewrite !append_assoc; reflexivity).
    replace (S a)
      with (String.length
              (before ++ name ++ String m0 mid' ++ "github.com" ++ String sep ""))
      by (subst a; repeat (rewrite length_append; simpl); lia).
    apply substring_middle.
Qed.









End Remotes.

(** X19: for a remote whose name is made of letters, digits, hyphens
    and underscores, on a line of [git remote -v] that begins with the
    name and names a repository at [github.com] -- the name, some text,
    [github.com], a colon or a slash, the repository, [.git] --
    [get_repo_name_for_remote] yields the repository, the text between
    the separator and the first [.git] after it, when no earlier
    position of the output begins with the name of the remote. *)
Theorem get_repo_name_for_remote_line env (name before mid : string)
    (sep : ascii) (repo rest : string) (w : World) :
  Py.all_chars plain_char name = true ->
  popen_output env (trace w) "git remote -v"
  = before ++ remote_line name mid sep repo rest ->
  Re.at_bol true (last_char None before) = true ->
  none_before name before (remote_line name mid sep repo rest) = true ->
  lazy_stop "github.com" mid
    ("github.com" ++ String sep (repo ++ ".git" ++ rest)) = true ->
  sep = ":"%char \/ sep = "/"%char ->
  lazy_stop ".git" repo (".git" ++ rest) = true ->
  get_repo_name_for_remote env name w
  = (Returns (Some repo),
     {| cwd := cwd w; files := files w;
        trace := trace w ++ [Popen "git remote -v"] |}).
Proof.
  intros _ Hout Hbol Hbefore Hmid Hsep Hrepo.
  destruct (search_remote_line name before mid sep repo rest
              Hbol Hbefore Hmid Hsep Hrepo) as (m & Hm & Hg).
  unfold get_repo_name_for_remote. unfold_ops. run.
  rewrite Hout, Hm, Hg.
  destruct repo as [|r0 repo']; [discriminate Hrepo | reflexivity].
Qed.

Lemma get_repo_name_for_remote_line_witness :
  get_repo_name_for_remote (example_env (fun _ => 0) with_upstream None)
    "upstream" (fresh "/home/dev/project")
  = (Returns (Some "owner/project"),
     {| cwd := "/home/dev/project"; files := ∅;
        trace := [Popen "git remote -v"] |}).
Proof.
  apply (get_repo_name_for_remote_line
           (example_env (fun _ => 0) with_upstream None) "upstream"
           ("origin" ++ String "009" "git@github.com:adev/project.git (fetch)"
            ++ String "010" "")
           (String "009" "git@") ":" "owner/project"
           (" (fetch)" ++ String "010" "")
           (fresh "/home/dev/project")).
  - reflexivity.
  - reflexivity.
  - reflexivity.
  - reflexivity.
  - reflexivity.
  - now left.
  - reflexivity.
Defined.



(** * Reading the options: the properties *)

Section OptionFacts.
Local Open Scope nat_scope.

Lemma findall_lits ml l its g : forall prev i s,
  Findall.match_items ml (Findall.lits l ++ its) g prev i s
  = if String.prefix l s
    then Findall.match_items ml its g (last_char prev l) (i + String.length l)
           (Py.slice_from (String.length l) s)
    else None.
Proof.
  induction l as [|c l IH]; intros prev i s.
  - simpl. rewrite Nat.add_0_r. now destruct s.
  - destruct s as [|c' s]; [reflexivity |].
    cbn [Findall.lits app Findall.match_items String.prefix].
    destruct (ascii_dec c c') as [<- | Hne].
    + rewrite Ascii.eqb_refl, IH. simpl. now rewrite <- plus_n_Sm.
    + destruct (Ascii.eqb_spec c' c) as [-> |]; [congruence | reflexivity].
Qed.

Lemma findall_Bol ml its g prev i s :
  Findall.match_items ml (Findall.Bol :: its) g prev i s
  = if Re.at_bol ml prev then Findall.match_items ml its g prev i s else None.
Proof. reflexivity. Qed.

Lemma findall_Eol ml its g prev i s :
  Findall.match_items ml (Findall.Eol :: its) g prev i s
  = if Findall.at_eol ml s then Findall.match_items ml its g prev i s else None.
Proof. reflexivity. Qed.

Lemma findall_Open ml n its g prev i s :
  Findall.match_items ml (Findall.Open n :: its) g prev i s
  = Findall.match_items ml its
      {| Findall.starts := Findall.set n i (Findall.starts g);
         Findall.spans := Findall.spans g |} prev i s.
Proof. reflexivity. Qed.

Lemma findall_Close ml n its g prev i s :
  Findall.match_items ml (Findall.Close n :: its) g prev i s
  = Findall.match_items ml its
      {| Findall.starts := Findall.starts g;
         Findall.spans :=
           Findall.set n (Some (Findall.starts g n, i)) (Findall.spans g) |}
      prev i s.
Proof. reflexivity. Qed.

Lemma findall_Rep ml n p its g prev i s :
  Findall.match_items ml (Findall.Rep true n p :: its) g prev i s
  = Re.rep_min n p
      (Re.rep_greedy p
         (fun prev' i' s' => Findall.match_items ml its g prev' i' s'))
      prev i s.
Proof. reflexivity. Qed.

Lemma findall_Lit ml c its g prev i s :
  Findall.match_items ml (Findall.Lit c :: its) g prev i (String c s)
  = Findall.match_items ml its g (Some c) (S i) s.
Proof. cbn [Findall.match_items]. now rewrite Ascii.eqb_refl. Qed.

Lemma at_eol_begins after :
  Findall.at_eol true after = true -> begins Re.not_newline after = false.
Proof.
  destruct after as [|c after]; [reflexivity |].
  cbn [Findall.at_eol begins]. unfold Re.not_newline.
  destruct (Ascii.eqb c "010"); [reflexivity | discriminate].
Qed.

(** The pattern on a line that sets an option. *)
Lemma match_option_line (key text after : string) g prev i :
  Re.at_bol true prev = true ->
  key <> "" ->
  Py.all_chars (fun c => negb (Ascii.eqb c "=")) key = true ->
  Py.all_chars Re.not_newline text = true ->
  Findall.at_eol true after = true ->
  exists g',
    Findall.match_items true option_pattern g prev i
      (option_line key text ++ after)
    = Some (i + String.length (option_line key text), g')
    /\ Findall.spans g' 1
       = Some (i + 17, i + 17 + String.length key)
    /\ Findall.spans g' 2
       = Some (i + 17 + String.length key + 1,
               i + 17 + String.length key + 1 + String.length text).
Proof.
  intros Hbol Hkey Hne Hnn Heol.
  unfold option_pattern, option_line.
  rewrite findall_Bol, Hbol.
  rewrite append_assoc, findall_lits, prefix_append, slice_from_append.
  rewrite findall_Open, findall_Rep, rep_run.
  2:{ right. intros c prev' i' s Hc.
      rewrite findall_Close. cbn [Findall.match_items].
      apply negb_true_iff in Hc. now rewrite Hc. }
  rewrite !append_assoc.
  rewrite take_run_exact, drop_run_exact by (assumption || reflexivity).
  assert (Hlen : (1 <=? String.length key) = true).
  { destruct key; [congruence | reflexivity]. }
  rewrite Hlen.
  change ("=" ++ text ++ after) with (String "=" (text ++ after)).
  rewrite findall_Close, findall_Lit, findall_Open, findall_Rep, rep_run.
  2:{ right. intros c prev' i' s Hc.
      rewrite findall_Close, findall_Eol. cbn [Findall.at_eol].
      unfold Re.not_newline in Hc. apply negb_true_iff in Hc. now rewrite Hc. }
  rewrite take_run_exact, drop_run_exact
    by (assumption || now apply at_eol_begins).
  cbn [Nat.leb].
  rewrite findall_Close, findall_Eol, Heol.
  cbn [Findall.match_items].
  eexists. split; [| split].
  - f_equal. f_equal. rewrite !length_append. simpl. lia.
  - cbn. reflexivity.
  - cbn. f_equal. f_equal; simpl; lia.
Qed.

Lemma match_option_none g prev i s :
  String.prefix "git-pull-request." s = false ->
  Findall.match_items true option_pattern g prev i s = None.
Proof.
  intros H. unfold option_pattern.
  rewrite findall_Bol, findall_lits, H. now destruct (Re.at_bol true prev).
Qed.

Lemma findall_skip ml its whole t : forall a prev i,
  Findall.findall_from ml its whole (String.length a) prev i (a ++ t)
  = Findall.findall_from ml its whole 0 (last_char prev a)
      (i + String.length a) t.
Proof.
  induction a as [|c a IH]; intros prev i.
  - simpl. now rewrite Nat.add_0_r.
  - change (String c a ++ t) with (String c (a ++ t)).
    cbn [String.length Findall.findall_from last_char].
    rewrite IH. now rewrite <- plus_n_Sm.
Qed.

Lemma findall_hit ml its whole prev i c s e g :
  Findall.match_items ml its Findall.no_groups prev i (String c s) = Some (e, g) ->
  Findall.findall_from ml its whole 0 prev i (String c s)
  = (Findall.group whole g 1, Findall.group whole g 2)
    :: Findall.findall_from ml its whole (e - i - 1) (Some c) (S i) s.
Proof. intros H. cbn [Findall.findall_from]. now rewrite H. Qed.

Lemma findall_lead whole tail : forall junk prev i,
  none_before "git-pull-request." junk tail = true ->
  Findall.findall_from true option_pattern whole 0 prev i (junk ++ tail)
  = Findall.findall_from true option_pattern whole 0 (last_char prev junk)
      (i + String.length junk) tail.
Proof.
  induction junk as [|c junk IH]; intros prev i H.
  - simpl. now rewrite Nat.add_0_r.
  - cbn [none_before] in H. apply andb_prop in H as [H1 H2].
    apply negb_true_iff in H1.
    change (String c junk ++ tail) with (String c (junk ++ tail)) in *.
    cbn [Findall.findall_from]. rewrite (match_option_none _ _ _ _ H1).
    rewrite (IH _ _ H2). simpl. now rewrite <- plus_n_Sm.
Qed.

Lemma findall_final whole : forall s prev i,
  occurs "git-pull-request." s = false ->
  Findall.findall_from true option_pattern whole 0 prev i s = [].
Proof.
  induction s as [|c s IH]; intros prev i H;
    cbn [occurs] in H; apply orb_false_elim in H as [H1 H2];
    cbn [Findall.findall_from]; rewrite (match_option_none _ _ _ _ H1).
  - reflexivity.
  - now apply IH.
Qed.

Lemma last_char_nonempty p q s : s <> "" -> last_char p s = last_char q s.
Proof. destruct s as [|c s]; [congruence | reflexivity]. Qed.

Lemma findall_settings final : forall settings pre prev,
  well_formed settings final = true ->
  (forall x rest, settings = x :: rest -> lead x = "" ->
     Re.at_bol true prev = true) ->
  Findall.findall_from true option_pattern (pre ++ config_text settings final)
    0 prev (String.length pre) (config_text settings final)
  = map (fun x => (key x, text x)) settings.
Proof.
  induction settings as [|x rest IH]; intros pre prev Hwf Hprev.
  - cbn [well_formed] in Hwf. apply negb_true_iff in Hwf.
    now apply findall_final.
  - cbn [well_formed] in Hwf.
    repeat (let H := fresh "H" in apply andb_prop in Hwf as [Hwf H]).
    rename Hwf into Hbol, H4 into Hlead, H3 into Hkey, H2 into Hne,
      H1 into Hnn, H0 into Heol, H into Hrest.
    cbn [config_text map].
    set (after := config_text rest final) in *.
    set (whole := pre ++ lead x ++ option_line (key x) (text x) ++ after).
    rewrite (findall_lead _ _ _ _ _ Hlead).
    assert (Hb : Re.at_bol true (last_char prev (lead x)) = true).
    { destruct (lead x) as [|c l] eqn:El.
      - exact (Hprev x rest eq_refl El).
      - exact Hbol. }
    assert (Hk : key x <> "").
    { apply negb_true_iff, String.eqb_neq in Hkey. exact Hkey. }
    destruct (match_option_line (key x) (text x) after Findall.no_groups
                (last_char prev (lead x))
                (String.length pre + String.length (lead x))
                Hb Hk Hne Hnn Heol) as (g' & Hm & Hg1 & Hg2).
    set (i := String.length pre + String.length (lead x)) in *.
    set (line' := "it-pull-request." ++ key x ++ "=" ++ text x).
    change (option_line (key x) (text x) ++ after)
      with (String "g" (line' ++ after)) in Hm |- *.
    rewrite (findall_hit _ _ _ _ _ _ _ _ _ Hm).
    replace (i + String.length (option_line (key x) (text x)) - i - 1)
      with (String.length line')
      by (change (option_line (key x) (text x)) with (String "g" line');
          simpl; lia).
    rewrite findall_skip.
    f_equal.
    + unfold Findall.group. rewrite Hg1, Hg2. f_equal.
      * replace (i + 17 + String.length (key x) - (i + 17))
          with (String.length (key x)) by lia.
        unfold whole, option_line.
        replace (pre ++ lead x ++ ("git-pull-request." ++ key x ++ "=" ++ text x)
                 ++ after)
          with ((pre ++ lead x ++ "git-pull-request.")
                ++ key x ++ "=" ++ text x ++ after)
          by (rewrite !append_assoc; reflexivity).
        replace (i + 17)
          with (String.length (pre ++ lead x ++ "git-pull-request."))
          by (subst i; rewrite !length_append; simpl; lia).
        apply substring_middle.
      * replace (i + 17 + String.length (key x) + 1 + String.length (text x)
                 - (i + 17 + String.length (key x) + 1))
          with (String.length (text x)) by lia.
        unfold whole, option_line.
        replace (pre ++ lead x ++ ("git-pull-request." ++ key x ++ "=" ++ text x)
                 ++ after)
          with ((pre ++ lead x ++ "git-pull-request." ++ key x ++ "=")
                ++ text x ++ after)
          by (rewrite !append_assoc; reflexivity).
        replace (i + 17 + String.length (key x) + 1)
          with (String.length (pre ++ lead x ++ "git-pull-request." ++ key x ++ "="))
          by (subst i; rewrite !length_append; simpl; lia).
        apply substring_middle.
    + specialize (IH (pre ++ lead x ++ option_line (key x) (text x))
                     (last_char (Some "g"%char) line') Hrest).
      replace (S i + String.length line')
        with (String.length (pre ++ lead x ++ option_line (key x) (text x)))
        by (subst i; rewrite !length_append;
            change (option_line (key x) (text x)) with (String "g" line');
            simpl; lia).
      replace whole
        with ((pre ++ lead x ++ option_line (key x) (text x)) ++ after)
        by (unfold whole; rewrite !append_assoc; reflexivity).
      apply IH.
      intros y rest' -> Hy. exfalso.
      subst after. cbn [config_text] in Heol. rewrite Hy in Heol.
      discriminate Heol.
Qed.

Lemma fold_left_pairs (settings : list setting) : forall options,
  fold_left (fun (options : gmap string value) (k : string * string) =>
               <[fst k := option_value (snd k)]> options)
    (map (fun x => (key x, text x)) settings) options
  = apply_settings settings options.
Proof.
  unfold apply_settings.
  induction settings as [|x rest IH]; intros options; [reflexivity |].
  cbn [map fold_left fst snd]. apply IH.
Qed.

End OptionFacts.

(** X21: when the configuration that [git config -l] prints, stripped,
    sets each option of the tool on a line of its own -- the text
    [git-pull-request.], a key that is not empty and runs up to the
    first [=], the text up to the end of the line -- and
    [git-pull-request.] begins nowhere else in it, [load_options] sets
    exactly these keys, in the order of the lines, each to the value of
    its text, and leaves the other options as they were. *)
Theorem load_options_settings env (options : gmap string value)
    (settings : list setting) (final : string) (w : World) :
  Py.strip (popen_output env (trace w) "git config -l")
  = config_text settings final ->
  well_formed settings final = true ->
  load_options env options w
  = (Returns (apply_settings settings options),
     {| cwd := cwd w; files := files w;
        trace := trace w ++ [Popen "git config -l"] |}).
Proof.
  intros Hout Hwf. unfold load_options. unfold_ops. run.
  rewrite Hout. unfold Findall.findall.
  pose proof (findall_settings final settings "" None Hwf
                (fun _ _ _ _ => eq_refl)) as H.
  simpl in H. rewrite H, fold_left_pairs. reflexivity.
Qed.

Lemma load_options_settings_witness :
  load_options (example_env (fun _ => 0) example_config None) default_options
    (fresh "/home/dev/project")
  = (Returns (<["merge-auto-close" := VBool false]>
                (<["update-method" := VStr "rebase"]>
                   (<["work-dir" := VStr "/home/dev/work"]> default_options))),
     {| cwd := "/home/dev/project"; files := ∅;
        trace := [Popen "git config -l"] |}).
Proof.
  apply (load_options_settings
           (example_env (fun _ => 0) example_config None) default_options
           example_settings (String "010" "core.editor=vi")
           (fresh "/home/dev/project")).
  - reflexivity.
  - reflexivity.
Defined.
